(** * generate_data.py: random test-data generator (CSV and XML)

    Shallow embedding of [src/generate_data.py] together with the parts of
    the Python standard library it calls ([random], [datetime], [_strptime],
    [xml.etree.ElementTree], text files), and the properties of the
    generator stated in the specification.

    Conventions.
    - Python [int] is [Z]; Python [str] is [string], a Rocq character being
      the code point (below 256) of the Python character.
    - Python [float] is IEEE binary64.  Every float the program computes is
      finite and far from the overflow and subnormal ranges, so a float is
      modelled by an integer mantissa and a binary exponent, and every
      arithmetic operation rounds its exact result to 53 significant bits,
      ties to even.
    - The process-wide random generator, the file system and the element
      objects of ElementTree live in an explicit world that is threaded
      through a state-and-exception monad. *)

From Stdlib Require Import ZArith Lia List Bool Ascii String DecimalString.
From stdpp Require Import base option list strings gmap.

Local Open Scope Z_scope.

(* ===================================================================== *)
(** ** IEEE binary64 arithmetic, as far as the program uses it *)
(* ===================================================================== *)

Module Float.

(** The float [Float m e] is the number [m * 2^e]. *)
Record float : Type := Float { Fnum : Z; Fexp : Z }.

Definition prec : Z := 53.

(** Number of binary digits of [|m|]. *)
Definition digits (m : Z) : Z :=
  if m =? 0 then 0 else Z.log2 (Z.abs m) + 1.

(** The integer nearest to [m / d] (for [0 < d]), ties to the even one. *)
Definition rnd_half_even (m d : Z) : Z :=
  let q := m / d in
  let r := m mod d in
  if 2 * r <? d then q
  else if d <? 2 * r then q + 1
  else if Z.even q then q else q + 1.

(** Rounding of an exact result to [prec] significant bits. *)
Definition round (x : float) : float :=
  let s := digits (Fnum x) - prec in
  if s <=? 0 then x
  else
    let m := rnd_half_even (Fnum x) (2 ^ s) in
    if Z.abs m =? 2 ^ prec then Float (m / 2) (Fexp x + s + 1)
    else Float m (Fexp x + s).

(** [float(n)] for a Python int [n]. *)
Definition of_int (n : Z) : float := round (Float n 0).

Definition opp (x : float) : float := Float (- Fnum x) (Fexp x).

(** Mantissa of [x] on the grid [2^e], for [e <= Fexp x]. *)
Definition align (x : float) (e : Z) : Z := Fnum x * 2 ^ (Fexp x - e).

Definition add (x y : float) : float :=
  let e := Z.min (Fexp x) (Fexp y) in
  round (Float (align x e + align y e) e).

Definition sub (x y : float) : float := add x (opp y).

Definition mul (x y : float) : float :=
  round (Float (Fnum x * Fnum y) (Fexp x + Fexp y)).

(** [p / q] for Python ints (true division, correctly rounded), [0 < q].
    An exact integer quotient is rounded as that integer; otherwise the
    quotient is computed with two guard bits and a sticky bit, which is
    set when the scaled division leaves a remainder. *)
Definition div_int (p q : Z) : float :=
  if p mod q =? 0 then of_int (p / q)
  else
    let e := digits p - digits q - prec - 2 in
    let n := if 0 <=? e then p else p * 2 ^ (- e) in
    let d := if 0 <=? e then q * 2 ^ e else q in
    let sticky := if n mod d =? 0 then 0 else 1 in
    round (Float (2 * (n / d) + sticky) (e - 1)).

(** [int(x)]: truncation towards zero. *)
Definition to_int (x : float) : Z :=
  if 0 <=? Fexp x then Fnum x * 2 ^ Fexp x
  else Z.quot (Fnum x) (2 ^ (- Fexp x)).

(** [math.modf(x)]: fractional and integral parts, both with the sign
    of [x]. *)
Definition modf (x : float) : float * float :=
  if 0 <=? Fexp x then (Float 0 0, x)
  else (Float (Z.rem (Fnum x) (2 ^ (- Fexp x))) (Fexp x),
        Float (Z.quot (Fnum x) (2 ^ (- Fexp x))) 0).

(** [round(x)] with one argument: nearest int, ties to even. *)
Definition py_round (x : float) : Z :=
  if 0 <=? Fexp x then Fnum x * 2 ^ Fexp x
  else rnd_half_even (Fnum x) (2 ^ (- Fexp x)).

End Float.

Import Float.

(* ===================================================================== *)
(** ** Exceptions and results *)
(* ===================================================================== *)

Inductive exn : Type :=
| ValueError
| TypeError
| OverflowError
| OSError
| RecursionError.

Inductive result (A : Type) : Type :=
| Ok (a : A)
| Raise (e : exn).
Arguments Ok {A} a.
Arguments Raise {A} e.

Definition is_ok {A} (r : result A) : bool :=
  match r with Ok _ => true | Raise _ => false end.

Definition rbind {A B} (r : result A) (k : A -> result B) : result B :=
  match r with Ok a => k a | Raise e => Raise e end.

(* ===================================================================== *)
(** ** Text: [str(int)], [%0Nd], [str.join] *)
(* ===================================================================== *)

Module Text.

Definition newline : ascii := "010"%char.
Definition quote : ascii := "034"%char.

(** [str(n)] for a Python int. *)
Definition str_int (n : Z) : string := NilZero.string_of_int (Z.to_int n).

Fixpoint zeros (n : nat) : string :=
  match n with O => EmptyString | S k => String "0" (zeros k) end.

(** ["%0wd" % n]. *)
Definition fmt_0d (w : nat) (n : Z) : string :=
  if n <? 0 then
    let s := str_int (- n) in
    String "-" (zeros (w - 1 - String.length s) +:+ s)
  else
    let s := str_int n in
    zeros (w - String.length s) +:+ s.

(** [sep.join(l)]. *)
Fixpoint join (sep : string) (l : list string) : string :=
  match l with
  | [] => EmptyString
  | [s] => s
  | s :: rest => s +:+ sep +:+ join sep rest
  end.

(** The text written by successive [write] calls. *)
Fixpoint cat (l : list string) : string :=
  match l with
  | [] => EmptyString
  | s :: rest => s +:+ cat rest
  end.

(** The lines of a text: the pieces between newline characters. *)
Fixpoint lines (s : string) : list string :=
  match s with
  | EmptyString => [EmptyString]
  | String c rest =>
      if Ascii.eqb c newline then EmptyString :: lines rest
      else
        match lines rest with
        | l :: ls => String c l :: ls
        | [] => [String c EmptyString]
        end
  end.

End Text.

Import Text.

(* ===================================================================== *)
(** ** The proleptic Gregorian calendar of [datetime] *)
(* ===================================================================== *)

Module Calendar.

Definition MINYEAR : Z := 1.
Definition MAXYEAR : Z := 9999.
(** [_MAXORDINAL = date(9999, 12, 31).toordinal()]. *)
Definition MAXORDINAL : Z := 3652059.

Definition is_leap (year : Z) : bool :=
  (year mod 4 =? 0) && (negb (year mod 100 =? 0) || (year mod 400 =? 0)).

(** [_DAYS_IN_MONTH[month]]. *)
Definition DAYS_IN_MONTH (month : Z) : Z :=
  match month with
  | 1 => 31 | 2 => 28 | 3 => 31 | 4 => 30 | 5 => 31 | 6 => 30
  | 7 => 31 | 8 => 31 | 9 => 30 | 10 => 31 | 11 => 30 | 12 => 31
  | _ => -1
  end.

(** [_DAYS_BEFORE_MONTH[month]]. *)
Definition DAYS_BEFORE_MONTH (month : Z) : Z :=
  match month with
  | 1 => 0 | 2 => 31 | 3 => 59 | 4 => 90 | 5 => 120 | 6 => 151
  | 7 => 181 | 8 => 212 | 9 => 243 | 10 => 273 | 11 => 304 | 12 => 334
  | _ => -1
  end.

Definition days_before_year (year : Z) : Z :=
  let y := year - 1 in
  y * 365 + y / 4 - y / 100 + y / 400.

Definition days_in_month (year month : Z) : Z :=
  if (month =? 2) && is_leap year then 29 else DAYS_IN_MONTH month.

Definition days_before_month (year month : Z) : Z :=
  DAYS_BEFORE_MONTH month + (if (2 <? month) && is_leap year then 1 else 0).

Definition ymd2ord (year month day : Z) : Z :=
  days_before_year year + days_before_month year month + day.

Definition DI400Y : Z := 146097.
Definition DI100Y : Z := 36524.
Definition DI4Y : Z := 1461.

Definition ord2ymd (ordinal : Z) : Z * Z * Z :=
  let n := ordinal - 1 in
  let n400 := n / DI400Y in
  let n := n mod DI400Y in
  let year := n400 * 400 + 1 in
  let n100 := n / DI100Y in
  let n := n mod DI100Y in
  let n4 := n / DI4Y in
  let n := n mod DI4Y in
  let n1 := n / 365 in
  let n := n mod 365 in
  let year := year + n100 * 100 + n4 * 4 + n1 in
  if (n1 =? 4) || (n100 =? 4) then (year - 1, 12, 31)
  else
    let leapyear := (n1 =? 3) && (negb (n4 =? 24) || (n100 =? 3)) in
    let month := Z.shiftr (n + 50) 5 in
    let preceding :=
      DAYS_BEFORE_MONTH month + (if (2 <? month) && leapyear then 1 else 0) in
    if n <? preceding then
      let month := month - 1 in
      let preceding :=
        preceding
        - (DAYS_IN_MONTH month + (if (month =? 2) && leapyear then 1 else 0)) in
      (year, month, n - preceding + 1)
    else (year, month, n - preceding + 1).

End Calendar.

Import Calendar.

(* ===================================================================== *)
(** ** [datetime.timedelta] and [datetime.datetime] *)
(* ===================================================================== *)

Module Datetime.

(** A normalised duration: [0 <= seconds < 86400],
    [0 <= microseconds < 10^6]. *)
Record timedelta : Type := Timedelta {
  days : Z;
  seconds : Z;
  microseconds : Z
}.

(** The exact length of a duration, in microseconds. *)
Definition td_us (d : timedelta) : Z :=
  (days d * 86400 + seconds d) * 1000000 + microseconds d.

(** Normalisation carried out by the constructor on an exact number of
    microseconds; the constructor refuses more than 999999999 days. *)
Definition timedelta_of_us (us : Z) : result timedelta :=
  let s := us / 1000000 in
  let d := s / 86400 in
  if 999999999 <? Z.abs d then Raise OverflowError
  else Ok (Timedelta d (s mod 86400) (us mod 1000000)).

(** [timedelta(days, seconds, microseconds)] with int arguments. *)
Definition timedelta_ints (d s us : Z) : result timedelta :=
  timedelta_of_us ((d * 86400 + s) * 1000000 + us).

(** [timedelta(days, seconds)] with an int [days] and a float [seconds]:
    the whole seconds are kept exactly, the fraction is scaled by [1e6]
    in floating point and rounded to the nearest microsecond, ties to
    even. *)
Definition timedelta_float_seconds (d : Z) (secs : float) : result timedelta :=
  let '(secondsfrac, whole) := modf secs in
  let s := to_int whole in
  let usdouble := mul secondsfrac (of_int 1000000) in
  let us := py_round (add (of_int 0) usdouble) in
  timedelta_of_us ((d * 86400 + s) * 1000000 + us).

(** [td.total_seconds()]. *)
Definition total_seconds (d : timedelta) : float :=
  div_int (td_us d) (10 ^ 6).

Record datetime : Type := Datetime {
  year : Z; month : Z; day : Z;
  hour : Z; minute : Z; second : Z; microsecond : Z
}.

(** The checks of the [datetime(...)] constructor. *)
Definition valid_fields (y mo d h mi s us : Z) : bool :=
  (MINYEAR <=? y) && (y <=? MAXYEAR)
  && (1 <=? mo) && (mo <=? 12)
  && (1 <=? d) && (d <=? days_in_month y mo)
  && (0 <=? h) && (h <=? 23)
  && (0 <=? mi) && (mi <=? 59)
  && (0 <=? s) && (s <=? 59)
  && (0 <=? us) && (us <=? 999999).

Definition valid (t : datetime) : bool :=
  valid_fields (year t) (month t) (day t) (hour t) (minute t) (second t)
    (microsecond t).

Definition new_datetime (y mo d h mi s us : Z) : result datetime :=
  if valid_fields y mo d h mi s us then Ok (Datetime y mo d h mi s us)
  else Raise ValueError.

Definition toordinal (t : datetime) : Z := ymd2ord (year t) (month t) (day t).

(** Microseconds since the start of day 0 of the calendar. *)
Definition us_of_datetime (t : datetime) : Z :=
  ((toordinal t * 86400 + hour t * 3600 + minute t * 60 + second t) * 1000000)
  + microsecond t.

(** [a - b] for two naive datetimes. *)
Definition datetime_sub (a b : datetime) : result timedelta :=
  let secs1 := second a + minute a * 60 + hour a * 3600 in
  let secs2 := second b + minute b * 60 + hour b * 3600 in
  timedelta_ints (toordinal a - toordinal b) (secs1 - secs2)
    (microsecond a - microsecond b).

(** [t + d]. *)
Definition datetime_add (t : datetime) (d : timedelta) : result datetime :=
  rbind (timedelta_ints (toordinal t)
           (hour t * 3600 + minute t * 60 + second t) (microsecond t))
    (fun base =>
       rbind (timedelta_ints (days base + days d) (seconds base + seconds d)
                (microseconds base + microseconds d))
         (fun delta =>
            let h := seconds delta / 3600 in
            let rem := seconds delta mod 3600 in
            let mi := rem / 60 in
            let s := rem mod 60 in
            if (0 <? days delta) && (days delta <=? MAXORDINAL) then
              let '(y, mo, dd) := ord2ymd (days delta) in
              Ok (Datetime y mo dd h mi s (microseconds delta))
            else Raise OverflowError)).

(** Comparison of naive datetimes: lexicographic on the fields. *)
Definition fields (t : datetime) : list Z :=
  [year t; month t; day t; hour t; minute t; second t; microsecond t].

Fixpoint lex_leb (a b : list Z) : bool :=
  match a, b with
  | [], _ => true
  | _ :: _, [] => false
  | x :: a', y :: b' => (x <? y) || ((x =? y) && lex_leb a' b')
  end.

Definition datetime_leb (a b : datetime) : bool := lex_leb (fields a) (fields b).

(** [str(t)], that is [t.isoformat(sep=' ')]: the microseconds are
    printed, with six digits, only when they are not zero. *)
Definition str_datetime (t : datetime) : string :=
  fmt_0d 4 (year t) +:+ "-" +:+ fmt_0d 2 (month t) +:+ "-" +:+ fmt_0d 2 (day t)
  +:+ " "
  +:+ fmt_0d 2 (hour t) +:+ ":" +:+ fmt_0d 2 (minute t) +:+ ":"
  +:+ fmt_0d 2 (second t)
  +:+ (if microsecond t =? 0 then "" else "." +:+ fmt_0d 6 (microsecond t)).

End Datetime.

Import Datetime.

(* ===================================================================== *)
(** ** [datetime.strptime(s, '%Y-%m-%d %H:%M:%S')] *)
(* ===================================================================== *)

(** [_strptime] turns the format into the regular expression
    [(?P<Y>\d\d\d\d)-(?P<m>1[0-2]|0[1-9]|[1-9])-(?P<d>3[0-1]|[1-2]\d|0[1-9]|[1-9]| [1-9])\s+(?P<H>2[0-3]|[0-1]\d|\d):(?P<M>[0-5]\d|\d):(?P<S>6[0-1]|[0-5]\d|\d)]
    and matches it at the start of the string.  A matcher returns every
    way to match a prefix, in the order a backtracking engine tries them;
    the first complete one is the match. *)

Module Strptime.

Definition chars : Type := list ascii.
Definition matcher (A : Type) : Type := chars -> list (A * chars).

Definition code (c : ascii) : Z := Z.of_nat (nat_of_ascii c).

Definition digit_val (c : ascii) : option Z :=
  let n := code c in
  if (48 <=? n) && (n <=? 57) then Some (n - 48) else None.

(** [\s] on code points below 256. *)
Definition is_space (c : ascii) : bool :=
  let n := code c in
  ((9 <=? n) && (n <=? 13)) || ((28 <=? n) && (n <=? 32))
  || (n =? 133) || (n =? 160).

(** [[lo-hi]] for two digits [lo], [hi]; [\d] is [digit_in 0 9]. *)
Definition digit_in (lo hi : Z) : matcher Z := fun s =>
  match s with
  | c :: r =>
      match digit_val c with
      | Some d => if (lo <=? d) && (d <=? hi) then [(d, r)] else []
      | None => []
      end
  | [] => []
  end.

Definition lit (c : ascii) : matcher unit := fun s =>
  match s with
  | c' :: r => if Ascii.eqb c c' then [(tt, r)] else []
  | [] => []
  end.

Definition mret {A} (a : A) : matcher A := fun s => [(a, s)].

Definition mbind {A B} (p : matcher A) (k : A -> matcher B) : matcher B :=
  fun s => concat (map (fun ar => k (fst ar) (snd ar)) (p s)).

(** Alternation [p1|p2|...]. *)
Definition alt {A} (ps : list (matcher A)) : matcher A :=
  fun s => concat (map (fun p => p s) ps).

(** Two digits read as a number. *)
Definition two (hi lo : matcher Z) : matcher Z :=
  mbind hi (fun a => mbind lo (fun b => mret (10 * a + b))).

(** [\s*], greedy: the longest run first. *)
Fixpoint spaces_star (s : chars) : list (unit * chars) :=
  match s with
  | c :: r => if is_space c then spaces_star r ++ [(tt, s)] else [(tt, s)]
  | [] => [(tt, [])]
  end.

(** [\s+]. *)
Definition spaces_plus : matcher unit := fun s =>
  match s with
  | c :: r => if is_space c then spaces_star r else []
  | [] => []
  end.

Definition d09 : matcher Z := digit_in 0 9.

Definition dir_Y : matcher Z :=
  mbind d09 (fun a => mbind d09 (fun b => mbind d09 (fun c => mbind d09 (fun d =>
    mret (1000 * a + 100 * b + 10 * c + d))))).
Definition dir_m : matcher Z :=
  alt [two (digit_in 1 1) (digit_in 0 2); two (digit_in 0 0) (digit_in 1 9);
       digit_in 1 9].
Definition dir_d : matcher Z :=
  alt [two (digit_in 3 3) (digit_in 0 1); two (digit_in 1 2) d09;
       two (digit_in 0 0) (digit_in 1 9); digit_in 1 9;
       mbind (lit " ") (fun _ => digit_in 1 9)].
Definition dir_H : matcher Z :=
  alt [two (digit_in 2 2) (digit_in 0 3); two (digit_in 0 1) d09; d09].
Definition dir_M : matcher Z :=
  alt [two (digit_in 0 5) d09; d09].
Definition dir_S : matcher Z :=
  alt [two (digit_in 6 6) (digit_in 0 1); two (digit_in 0 5) d09; d09].

Definition format_regex : matcher (Z * Z * Z * Z * Z * Z) :=
  mbind dir_Y (fun y => mbind (lit "-") (fun _ =>
  mbind dir_m (fun mo => mbind (lit "-") (fun _ =>
  mbind dir_d (fun d => mbind spaces_plus (fun _ =>
  mbind dir_H (fun h => mbind (lit ":") (fun _ =>
  mbind dir_M (fun mi => mbind (lit ":") (fun _ =>
  mbind dir_S (fun sec => mret (y, mo, d, h, mi, sec)))))))))))).

(** [ValueError] when the string does not match, when unconverted data
    remains after the match, or when the fields are not a date and time
    ([day is out of range for month], [year 0 is out of range],
    [second must be in 0..59]). *)
Definition strptime (ts : string) : result datetime :=
  match format_regex (list_ascii_of_string ts) with
  | [] => Raise ValueError
  | ((y, mo, d, h, mi, sec), rest) :: _ =>
      match rest with
      | [] => new_datetime y mo d h mi sec 0
      | _ :: _ => Raise ValueError
      end
  end.

End Strptime.

Import Strptime.

(* ===================================================================== *)
(** ** The world: random generator, files, element objects *)
(* ===================================================================== *)

(** The hidden generator of the [random] module.  Its future output is a
    tape of raw draws; every call that needs randomness reads the draw
    under the cursor and advances the cursor. *)
Record RandomState : Type := {
  tape : nat -> N;
  cursor : nat
}.

(** An object of class [Element]: tag, text and the addresses of the
    children, in order. *)
Record node : Type := Node {
  tag : string;
  text : option string;
  children : list nat
}.

Record World : Type := {
  rng : RandomState;
  (** contents of the text files, by path *)
  files : gmap string string;
  (** paths that cannot be opened *)
  denied : gset string;
  (** the [Element] objects allocated so far; an object's address is its
      position *)
  elements : list node
}.

Definition set_rng (w : World) (r : RandomState) : World :=
  {| rng := r; files := files w; denied := denied w; elements := elements w |}.
Definition set_files (w : World) (f : gmap string string) : World :=
  {| rng := rng w; files := f; denied := denied w; elements := elements w |}.
Definition set_elements (w : World) (h : list node) : World :=
  {| rng := rng w; files := files w; denied := denied w; elements := h |}.

(** Computations that read and change the world and may raise. *)
Definition M (A : Type) : Type := World -> result A * World.

Definition ret {A} (a : A) : M A := fun w => (Ok a, w).
Definition raise {A} (e : exn) : M A := fun w => (Raise e, w).
Definition bind {A B} (m : M A) (k : A -> M B) : M B := fun w =>
  match m w with
  | (Ok a, w') => k a w'
  | (Raise e, w') => (Raise e, w')
  end.
Definition lift {A} (r : result A) : M A := fun w => (r, w).

Declare Scope py_scope.
Delimit Scope py_scope with py.
Notation "'let*' x ':=' m 'in' k" := (bind m (fun x => k))
  (at level 10, x name, m at level 100, k at level 200) : py_scope.
Notation "m ;; k" := (bind m (fun _ => k))
  (at level 100, k at level 200, right associativity) : py_scope.
Local Open Scope py_scope.

(** [for x in l: body(x)]. *)
Fixpoint for_each {A} (l : list A) (body : A -> M unit) : M unit :=
  match l with
  | [] => ret tt
  | x :: rest => body x ;; for_each rest body
  end.

(** [[f(x) for x in l]] for an effectful [f]. *)
Fixpoint map_m {A B} (f : A -> M B) (l : list A) : M (list B) :=
  match l with
  | [] => ret []
  | x :: rest => let* y := f x in let* ys := map_m f rest in ret (y :: ys)
  end.

(** [range(start, stop)]. *)
Definition range (start stop : Z) : list Z :=
  map (fun i => start + Z.of_nat i) (seq 0 (Z.to_nat (stop - start))).

(* ===================================================================== *)
(** ** The [random] module *)
(* ===================================================================== *)

Module Random.

Definition next_raw : M N := fun w =>
  let r := rng w in
  (Ok (tape r (cursor r)),
   set_rng w {| tape := tape r; cursor := S (cursor r) |}).

(** [random.random()]: a multiple of [2^-53] in [[0, 1)]. *)
Definition random : M float :=
  let* k := next_raw in ret (Float (Z.of_N k mod 2 ^ 53) (-53)).

(** [_randbelow(n)] for [0 < n]: an int in [[0, n)]. *)
Definition randbelow (n : Z) : M Z :=
  let* k := next_raw in ret (Z.of_N k mod n).

(** [random.randrange(start, stop)]. *)
Definition randrange (start stop : Z) : M Z :=
  let width := stop - start in
  if 0 <? width then let* r := randbelow width in ret (start + r)
  else raise ValueError.

(** [random.randrange(start, None)]: without a stop, [start] is read as
    the stop of a range that starts at 0. *)
Definition randrange_from_zero (stop : Z) : M Z :=
  if 0 <? stop then randbelow stop else raise ValueError.

(** [random.uniform(a, b)], that is [a + (b - a) * random()]. *)
Definition uniform (a b : float) : M float :=
  let* r := random in ret (add a (mul (sub b a) r)).

End Random.

(* ===================================================================== *)
(** ** [class RandomData] *)
(* ===================================================================== *)

(** The Python values the program handles. *)
Inductive pyval : Type :=
| PInt (n : Z)
| PStr (s : string)
| PDatetime (t : datetime)
| PNone.

(** [str(v)]. *)
Definition str (v : pyval) : string :=
  match v with
  | PInt n => str_int n
  | PStr s => s
  | PDatetime t => str_datetime t
  | PNone => "None"
  end.

Module RandomData.

Record t : Type := Build {
  name : string;
  min : pyval;
  max : pyval;
  value : pyval
}.

(** Returns random integer in given limits. *)
Definition rand_int (min max : Z) : M Z := Random.randrange min max.

Definition str_to_ts (ts : string) : M datetime := lift (strptime ts).

(** Returns random timestamp in given limits. *)
Definition rand_ts (min max : string) : M datetime :=
  let* min := str_to_ts min in
  let* max := str_to_ts max in
  let* d := lift (datetime_sub max min) in
  let delta := total_seconds d in
  let* delta_rand := Random.uniform (of_int 0) delta in
  let* td := lift (timedelta_float_seconds 0 delta_rand) in
  lift (datetime_add min td).

(** Generates random value by given type.  An unknown type falls through
    both branches and yields [None].

    Limits of another Python type than the strategy expects meet the
    library as follows (Python 3.3 to 3.8, the versions that ship
    [xml.etree.cElementTree]).  [randrange] converts its arguments with
    [int] in order: a string raises [ValueError] (it is no integer
    literal, or it differs from the integer it denotes), a datetime or
    [None] as start raises [TypeError]; [None] as stop means that the
    start is the stop of a range from 0.  [strptime] raises [TypeError]
    on anything but a string, the lower limit being parsed first. *)
Definition rand_value (value_type : string) (min max : pyval) : M pyval :=
  if String.eqb value_type "int" then
    match min, max with
    | PInt a, PInt b => let* v := rand_int a b in ret (PInt v)
    | PInt a, PNone => let* v := Random.randrange_from_zero a in ret (PInt v)
    | PInt _, PStr _ => raise ValueError
    | PInt _, PDatetime _ => raise TypeError
    | PStr _, _ => raise ValueError
    | PDatetime _, _ => raise TypeError
    | PNone, _ => raise TypeError
    end
  else if String.eqb value_type "ts" then
    match min, max with
    | PStr a, PStr b => let* v := rand_ts a b in ret (PDatetime v)
    | PStr a, _ => let* _ := str_to_ts a in raise TypeError
    | _, _ => raise TypeError
    end
  else ret PNone.

(** [RandomData(name, type, min, max)]. *)
Definition new (name type : string) (min max : pyval) : M t :=
  let* v := rand_value type min max in ret (Build name min max v).

(** [RandomData(name)]: [type='int', min=1, max=1000000000]. *)
Definition new_default (name : string) : M t :=
  new name "int" (PInt 1) (PInt 1000000000).

End RandomData.

(* ===================================================================== *)
(** ** [class DataString] *)
(* ===================================================================== *)

Module DataString.

(** The attribute [self.string]: a tuple of seven [RandomData]. *)
Record t : Type := Build { string_ : list RandomData.t }.

Definition new : M t :=
  let* f1 := RandomData.new_default "start_page" in
  let* f2 := RandomData.new "user" "int" (PInt 1) (PInt 100000000) in
  let* f3 := RandomData.new "ts" "ts" (PStr "2005-01-01 23:56:42")
          (PStr "2016-01-01 10:50:00") in
  let* f4 := RandomData.new "depth" "int" (PInt 1) (PInt 50) in
  let* f5 := RandomData.new "duration" "int" (PInt 100) (PInt 10000) in
  let* f6 := RandomData.new "transmit" "int" (PInt 100000) (PInt 1000000000) in
  let* f7 := RandomData.new "type" "int" (PInt 1) (PInt 5) in
  ret (Build [f1; f2; f3; f4; f5; f6; f7]).

(** Returns joined RandomData names. *)
Definition headers (self : t) : string :=
  join "," (map RandomData.name (string_ self)).

(** Returns joined RandomData values. *)
Definition values (self : t) : string :=
  join "," (map (fun data => str (RandomData.value data)) (string_ self)).

End DataString.

(* ===================================================================== *)
(** ** Text files *)
(* ===================================================================== *)

Module File.

(** [open(path, 'w')]: creates or truncates the file. *)
Definition open_w (path : string) : M unit := fun w =>
  if decide (path ∈ denied w) then (Raise OSError, w)
  else (Ok tt, set_files w (<[path := EmptyString]> (files w))).

(** [f.write(s)] on a file opened for writing. *)
Definition write (path : string) (s : string) : M unit := fun w =>
  match files w !! path with
  | Some old => (Ok tt, set_files w (<[path := old +:+ s]> (files w)))
  | None => (Raise OSError, w)
  end.

(** Universal newlines, applied when a text file is read: [\r\n] and
    [\r] become [\n]. *)
Fixpoint universal_newlines (s : string) : string :=
  match s with
  | EmptyString => EmptyString
  | String c rest =>
      if Ascii.eqb c "013" then
        match rest with
        | String c' rest' =>
            if Ascii.eqb c' newline then String newline (universal_newlines rest')
            else String newline (universal_newlines rest)
        | EmptyString => String newline EmptyString
        end
      else String c (universal_newlines rest)
  end.

(** [open(path, 'r').read()]. *)
Definition read (path : string) : M string := fun w =>
  if decide (path ∈ denied w) then (Raise OSError, w)
  else
    match files w !! path with
    | Some data => (Ok (universal_newlines data), w)
    | None => (Raise OSError, w)
    end.

End File.

(* ===================================================================== *)
(** ** [xml.etree.ElementTree] *)
(* ===================================================================== *)

Module ET.

(** [Element(tag)]: a new object with no text and no children. *)
Definition Element (tag : string) : M nat := fun w =>
  (Ok (length (elements w)),
   set_elements w (elements w ++ [Node tag None []])).

(** [parent.append(child)]. *)
Definition append (parent child : nat) : M unit := fun w =>
  match elements w !! parent with
  | Some n =>
      (Ok tt,
       set_elements w
         (<[parent := Node (tag n) (text n) (children n ++ [child])]>
            (elements w)))
  | None => (Raise TypeError, w)
  end.

(** [SubElement(parent, tag)]. *)
Definition SubElement (parent : nat) (tag : string) : M nat :=
  let* element := Element tag in
  append parent element ;;
  ret element.

(** [e.text = s]. *)
Definition set_text (e : nat) (s : string) : M unit := fun w =>
  match elements w !! e with
  | Some n =>
      (Ok tt,
       set_elements w (<[e := Node (tag n) (Some s) (children n)]> (elements w)))
  | None => (Raise TypeError, w)
  end.

(** The tree below an element, as the serializer walks it. *)
Inductive tree : Type :=
| Elem (tag : string) (text : option string) (kids : list tree).

Fixpoint all_some {A} (l : list (option A)) : option (list A) :=
  match l with
  | [] => Some []
  | Some a :: rest =>
      match all_some rest with Some r => Some (a :: r) | None => None end
  | None :: _ => None
  end.

(** Walk of at most [depth] levels from the object at address [a]. *)
Fixpoint reify (depth : nat) (h : list node) (a : nat) : option tree :=
  match depth with
  | O => None
  | S d =>
      match h !! a with
      | Some n =>
          match all_some (map (reify d h) (children n)) with
          | Some kids => Some (Elem (tag n) (text n) kids)
          | None => None
          end
      | None => None
      end
  end.

(** A tree of distinct objects is never deeper than the number of
    objects. *)
Definition tree_of (h : list node) (a : nat) : option tree :=
  reify (length h) h a.

(** [_escape_cdata]. *)
Fixpoint escape_cdata (s : string) : string :=
  match s with
  | EmptyString => EmptyString
  | String c rest =>
      (if Ascii.eqb c "&" then "&amp;"
       else if Ascii.eqb c "<" then "&lt;"
       else if Ascii.eqb c ">" then "&gt;"
       else String c EmptyString) +:+ escape_cdata rest
  end.

(** [_serialize_xml] with [short_empty_elements=True], for elements
    without attributes, namespaces and tails. *)
Fixpoint serialize_xml (e : tree) : string :=
  match e with
  | Elem tag text kids =>
      let has_text :=
        match text with
        | Some (String _ _) => true
        | _ => false
        end in
      match has_text, kids with
      | false, [] => "<" +:+ tag +:+ " />"
      | _, _ =>
          "<" +:+ tag +:+ ">"
          +:+ match text with Some s => escape_cdata s | None => "" end
          +:+ cat (map serialize_xml kids)
          +:+ "</" +:+ tag +:+ ">"
      end
  end.

(** Encoding [us-ascii] with [errors='xmlcharrefreplace']. *)
Fixpoint xmlcharrefreplace (s : string) : string :=
  match s with
  | EmptyString => EmptyString
  | String c rest =>
      (if code c <? 128 then String c EmptyString
       else "&#" +:+ str_int (code c) +:+ ";") +:+ xmlcharrefreplace rest
  end.

(** [ElementTree(root).write(file)]: default encoding [us-ascii], hence
    no XML declaration. *)
Definition write (root : nat) (file : string) : M unit :=
  File.open_w file ;;
  let* t := (fun w => (match tree_of (elements w) root with
                       | Some t => Ok t
                       | None => Raise RecursionError
                       end, w)) in
  File.write file (xmlcharrefreplace (serialize_xml t)).

End ET.

(* ===================================================================== *)
(** ** The generators *)
(* ===================================================================== *)

(** Function duration measure: the wrapper logs the start time, calls the
    function, and logs the end time and the duration.  Logging is not
    modelled. *)
Definition measure_time (func : string -> Z -> M unit) : string -> Z -> M unit :=
  fun file data_rows => func file data_rows.

(** Generate CSV files. *)
Definition generate_csv : string -> Z -> M unit :=
  measure_time (fun file data_rows =>
    let strings_to_output := data_rows in
    File.open_w file ;;
    (let* header := DataString.new in
     File.write file (DataString.headers header)) ;;
    for_each (range 1 strings_to_output) (fun _ =>
      let* row := DataString.new in
      File.write file (String newline (DataString.values row)))).

Definition xml_declaration : string :=
  "<?xml version=" +:+ String quote "1.0" +:+ String quote " encoding="
  +:+ String quote "UTF-8" +:+ String quote "?>".

(** Generate XML files. *)
Definition generate_xml : string -> Z -> M unit :=
  measure_time (fun file data_rows =>
    let strings_to_output := data_rows in
    let* root := ET.Element "root" in
    for_each (range 1 strings_to_output) (fun _ =>
      let* row := ET.SubElement root "row" in
      let* data := DataString.new in
      for_each (DataString.string_ data) (fun node =>
        let* leaf := ET.SubElement row (RandomData.name node) in
        ET.set_text leaf (str (RandomData.value node)))) ;;
    ET.write root file ;;
    let* data := File.read file in
    File.open_w file ;;
    File.write file (xml_declaration +:+ String newline data)).


(* ===================================================================== *)
(** ** Auxiliary definitions used by the proofs *)
(* ===================================================================== *)

(** A float [x] that is at least [0] and at most the integer [B], on a
    grid no finer than [2^-j]. *)
Definition bounded (x : float) (B j : Z) : Prop :=
  0 <= Fnum x /\ Fnum x < 2 ^ prec /\ - j <= Fexp x
  /\ Fnum x * 2 ^ (Fexp x + j) <= B * 2 ^ j.

(** The offset, in microseconds, that [rand_ts] adds to the lower bound
    when the bounds are [D] seconds apart and the generator draws [k]:
    [timedelta(0, uniform(0, D))]. *)
Definition offset_us (D k : Z) : Z :=
  let x := add (of_int 0) (mul (sub (of_int D) (of_int 0)) (Float k (-53))) in
  let '(f, w) := modf x in
  (0 * 86400 + to_int w) * 1000000
  + py_round (add (of_int 0) (mul f (of_int 1000000))).

(** What [_ord2ymd] must find for day [n] (counted from 0) of a year:
    a month and a day of that month, the right number of days into the
    year. *)
Definition month_day_ok (leapyear : bool) (n m d : Z) : bool :=
  (1 <=? m) && (m <=? 12) && (1 <=? d)
  && (d <=? DAYS_IN_MONTH m + (if (m =? 2) && leapyear then 1 else 0))
  && (DAYS_BEFORE_MONTH m + (if (2 <? m) && leapyear then 1 else 0) + d
      =? n + 1).

(** The month estimate of [_ord2ymd] and its correction, checked on day
    [n] of a year. *)
Definition month_estimate_ok (leapyear : bool) (n : Z) : bool :=
  let month := Z.shiftr (n + 50) 5 in
  let preceding :=
    DAYS_BEFORE_MONTH month + (if (2 <? month) && leapyear then 1 else 0) in
  if n <? preceding then
    month_day_ok leapyear n (month - 1)
      (n - (preceding
            - (DAYS_IN_MONTH (month - 1)
               + (if (month - 1 =? 2) && leapyear then 1 else 0))) + 1)
  else month_day_ok leapyear n month (n - preceding + 1).

(** The raw draw under the cursor, and the world once it is consumed. *)
Definition draw (w : World) : Z := Z.of_N (tape (rng w) (cursor (rng w))).
Definition advance (w : World) : World :=
  set_rng w {| tape := tape (rng w); cursor := S (cursor (rng w)) |}.

(** The value [rand_ts] computes between two parsed bounds, as a function
    of the 53 random bits [k] it draws. *)
Definition ts_value (a b : datetime) (k : Z) : result datetime :=
  rbind (datetime_sub b a) (fun d =>
  rbind (timedelta_float_seconds 0
           (add (of_int 0) (mul (sub (total_seconds d) (of_int 0)) (Float k (-53)))))
    (fun td => datetime_add a td)).

Definition ts_of (a b : datetime) (k : Z) : datetime :=
  match ts_value a b k with Ok r => r | Raise _ => a end.

(** [a <= t <= b] for datetimes. *)
Definition between (a t b : datetime) : bool :=
  datetime_leb a t && datetime_leb t b.

(** A world with the given tape of raw draws, no file and no object. *)
Definition world_of (raw : nat -> N) : World :=
  {| rng := {| tape := raw; cursor := 0 |};
     files := ∅; denied := ∅; elements := [] |}.

(** Two generators: one that only draws zeros, one with varied draws. *)
Definition zero_world : World := world_of (fun _ => 0%N).
Definition sample_world : World :=
  world_of (fun i => (N.of_nat i * 7654321234567 + 12345)%N).

(** The bounds of the [ts] field, parsed. *)
Definition ts_min : datetime := Datetime 2005 1 1 23 56 42 0.
Definition ts_max : datetime := Datetime 2016 1 1 10 50 0 0.

(** The record that [DataString()] builds from seven successive draws. *)
Definition record_of (k1 k2 k3 k4 k5 k6 k7 : Z) : DataString.t :=
  DataString.Build
    [RandomData.Build "start_page" (PInt 1) (PInt 1000000000)
       (PInt (1 + k1 mod (1000000000 - 1)));
     RandomData.Build "user" (PInt 1) (PInt 100000000)
       (PInt (1 + k2 mod (100000000 - 1)));
     RandomData.Build "ts" (PStr "2005-01-01 23:56:42")
       (PStr "2016-01-01 10:50:00")
       (PDatetime (ts_of ts_min ts_max (k3 mod 2 ^ 53)));
     RandomData.Build "depth" (PInt 1) (PInt 50) (PInt (1 + k4 mod (50 - 1)));
     RandomData.Build "duration" (PInt 100) (PInt 10000)
       (PInt (100 + k5 mod (10000 - 100)));
     RandomData.Build "transmit" (PInt 100000) (PInt 1000000000)
       (PInt (100000 + k6 mod (1000000000 - 100000)));
     RandomData.Build "type" (PInt 1) (PInt 5) (PInt (1 + k7 mod (5 - 1)))].

(** The world after [n] draws. *)
Fixpoint adv (n : nat) (w : World) : World :=
  match n with
  | O => w
  | S k => adv k (advance w)
  end.

(** The record built in world [w]. *)
Definition record_at (w : World) : DataString.t :=
  record_of (draw w) (draw (adv 1 w)) (draw (adv 2 w)) (draw (adv 3 w))
    (draw (adv 4 w)) (draw (adv 5 w)) (draw (adv 6 w)).

(** The [n] records built one after the other from world [w]. *)
Fixpoint records (n : nat) (w : World) : list DataString.t :=
  match n with
  | O => []
  | S k => record_at w :: records k (adv 7 w)
  end.

(** Every character of [s] satisfies [p]. *)
Fixpoint all_chars (p : ascii -> bool) (s : string) : bool :=
  match s with
  | EmptyString => true
  | String c rest => p c && all_chars p rest
  end.

(** The characters of a formatted value: digits, space, [,], [-], [.]
    and [:]. *)
Definition plain (c : ascii) : bool :=
  let n := code c in
  ((48 <=? n) && (n <=? 57)) || (n =? 32) || (n =? 44) || (n =? 45)
  || (n =? 46) || (n =? 58).

(** The characters of a tag: ASCII letters and the underscore. *)
Definition tagchar (c : ascii) : bool :=
  let n := code c in
  ((97 <=? n) && (n <=? 122)) || ((65 <=? n) && (n <=? 90)) || (n =? 95).

(** ASCII characters other than the carriage return. *)
Definition ascii_no_cr (c : ascii) : bool :=
  let n := code c in (n <? 128) && negb (n =? 13).

(** Characters other than the newline. *)
Definition no_newline (c : ascii) : bool := negb (Ascii.eqb c newline).

(** The object and the tree of a leaf element, and of a row element
    placed at address [a] with its leaves right behind it. *)
Definition leaf_node (d : RandomData.t) : node :=
  Node (RandomData.name d) (Some (str (RandomData.value d))) [].
Definition leaf_tree (d : RandomData.t) : ET.tree :=
  ET.Elem (RandomData.name d) (Some (str (RandomData.value d))) [].
Definition row_tree (r : DataString.t) : ET.tree :=
  ET.Elem "row" None (map leaf_tree (DataString.string_ r)).
Definition leaf_addrs (a : nat) (from n : nat) : list nat :=
  map (fun i => (a + 1 + i)%nat) (seq from n).
Definition row_block (a : nat) (r : DataString.t) : list node :=
  Node "row" None (leaf_addrs a 0 (length (DataString.string_ r)))
  :: map leaf_node (DataString.string_ r).

(** The body of the loops of [generate_xml]. *)
Definition xml_leaf (row : nat) (node : RandomData.t) : M unit :=
  let* leaf := ET.SubElement row (RandomData.name node) in
  ET.set_text leaf (str (RandomData.value node)).
Definition xml_row (root : nat) : M unit :=
  let* row := ET.SubElement root "row" in
  let* data := DataString.new in
  for_each (DataString.string_ data) (xml_leaf row).

(** The objects of row [r] sit at address [a] of the heap [h]. *)
Definition row_at (h : list node) (a : nat) (r : DataString.t) : Prop :=
  take (length (row_block a r)) (drop a h) = row_block a r.

(** A field whose tag is made of ASCII characters and whose formatted
    value is made of plain characters. *)
Definition good_field (d : RandomData.t) : Prop :=
  all_chars ascii_no_cr (RandomData.name d) = true
  /\ all_chars plain (str (RandomData.value d)) = true.

(** [s.split(sep)] for a one-character separator. *)
Fixpoint split_on (sep : ascii) (s : string) : list string :=
  match s with
  | EmptyString => [EmptyString]
  | String c rest =>
      if Ascii.eqb c sep then EmptyString :: split_on sep rest
      else
        match split_on sep rest with
        | l :: ls => String c l :: ls
        | [] => [String c EmptyString]
        end
  end.

(** The characters of one formatted value: digits, space, [-], [.]
    and [:]. *)
Definition valchar (c : ascii) : bool :=
  let n := code c in
  ((48 <=? n) && (n <=? 57)) || (n =? 32) || (n =? 45) || (n =? 46)
  || (n =? 58).

(** Characters other than the comma. *)
Definition no_comma (c : ascii) : bool := negb (Ascii.eqb c ",").

(** The formatted values of a record, as [values()] joins them. *)
Definition value_texts (r : DataString.t) : list string :=
  map (fun data => str (RandomData.value data)) (DataString.string_ r).

(** A world whose generator is that of [sample_world] and in which the
    path [locked.out] cannot be opened. *)
Definition locked_world : World :=
  {| rng := rng sample_world; files := ∅; denied := {["locked.out"]};
     elements := [] |}.

(** The text of one leaf and of one row of the document. *)
Definition leaf_text (d : RandomData.t) : string :=
  "<" +:+ RandomData.name d +:+ ">" +:+ str (RandomData.value d)
  +:+ "</" +:+ RandomData.name d +:+ ">".
Definition row_text (r : DataString.t) : string :=
  "<row>" +:+ cat (map leaf_text (DataString.string_ r)) +:+ "</row>".

(** The shape [YYYY-MM-DD HH:MM:SS.mmm] that the documentation of the
    module shows for a timestamp: in the pattern a [d] stands for one
    decimal digit, every other character for itself. *)
Definition is_digit (c : ascii) : bool :=
  let n := code c in (48 <=? n) && (n <=? 57).
Fixpoint has_shape (pattern s : string) : bool :=
  match pattern, s with
  | EmptyString, EmptyString => true
  | String p pattern', String c s' =>
      (if Ascii.eqb p "d" then is_digit c else Ascii.eqb p c)
      && has_shape pattern' s'
  | _, _ => false
  end.
Definition millisecond_format (s : string) : bool :=
  has_shape "dddd-dd-dd dd:dd:dd.ddd" s.

(** The text of the field [ts] of a record. *)
Definition ts_text (r : DataString.t) : string :=
  match DataString.string_ r !! 2%nat with
  | Some data => str (RandomData.value data)
  | None => ""
  end.

(** Characters other than the decimal point, and what follows the first
    decimal point of a text, if it has one. *)
Definition no_dot (c : ascii) : bool := negb (Ascii.eqb c ".").
Fixpoint after_dot (s : string) : option string :=
  match s with
  | EmptyString => None
  | String c rest => if Ascii.eqb c "." then Some rest else after_dot rest
  end.

(* AUXDEFS *)

(* ===================================================================== *)
(** * Properties *)
(* ===================================================================== *)

(** ** Rounding *)

Section Rounding.

Lemma digits_le (m n : Z) : 0 <= n -> Z.abs m < 2 ^ n -> digits m <= n.
Proof.
  intros Hn Hm. unfold digits.
  destruct (Z.eqb_spec m 0) as [->|Hne]; [lia|].
  assert (Z.log2 (Z.abs m) < n) by (apply Z.log2_lt_pow2; lia).
  lia.
Qed.

Lemma digits_gt (m n : Z) : 0 <= n -> n < digits m -> 2 ^ n <= Z.abs m.
Proof.
  intros Hn Hm. unfold digits in Hm.
  destruct (Z.eqb_spec m 0) as [->|Hne]; [lia|].
  apply Z.log2_le_pow2; lia.
Qed.

Lemma abs_lt_digits (m : Z) : Z.abs m < 2 ^ digits m.
Proof.
  unfold digits. destruct (Z.eqb_spec m 0) as [->|Hne]; [simpl; lia|].
  pose proof (Z.log2_spec (Z.abs m) ltac:(lia)) as [_ H].
  replace (Z.log2 (Z.abs m) + 1) with (Z.succ (Z.log2 (Z.abs m))) by lia.
  exact H.
Qed.

Lemma digits_nonneg (m : Z) : 0 <= digits m.
Proof.
  unfold digits. destruct (m =? 0); [lia|].
  pose proof (Z.log2_nonneg (Z.abs m)). lia.
Qed.

Lemma digits_opp (m : Z) : digits (- m) = digits m.
Proof.
  unfold digits. rewrite Z.abs_opp.
  destruct (Z.eqb_spec m 0), (Z.eqb_spec (- m) 0); lia.
Qed.

(** Rounding never passes a multiple of the divisor. *)
Lemma rnd_half_even_le (m d c : Z) :
  0 < d -> m <= c * d -> rnd_half_even m d <= c.
Proof.
  intros Hd Hm. unfold rnd_half_even.
  pose proof (Z.div_mod m d ltac:(lia)) as Hdm.
  pose proof (Z.mod_pos_bound m d Hd) as Hr.
  assert (Hq : m / d <= c) by nia.
  destruct (Z.ltb_spec (2 * (m mod d)) d); [exact Hq|].
  assert (m mod d <> 0) by lia.
  assert (m / d < c) by nia.
  destruct (d <? 2 * (m mod d)); [lia|].
  destruct (Z.even (m / d)); lia.
Qed.

Lemma rnd_half_even_ge (m d c : Z) :
  0 < d -> c * d <= m -> c <= rnd_half_even m d.
Proof.
  intros Hd Hm. unfold rnd_half_even.
  pose proof (Z.div_mod m d ltac:(lia)) as Hdm.
  pose proof (Z.mod_pos_bound m d Hd) as Hr.
  assert (Hq : c <= m / d) by nia.
  destruct (2 * (m mod d) <? d); [exact Hq|].
  destruct (d <? 2 * (m mod d)); [lia|].
  destruct (Z.even (m / d)); lia.
Qed.

Lemma rnd_half_even_exact (c d : Z) : 0 < d -> rnd_half_even (c * d) d = c.
Proof.
  intros Hd.
  pose proof (rnd_half_even_le (c * d) d c Hd ltac:(lia)).
  pose proof (rnd_half_even_ge (c * d) d c Hd ltac:(lia)).
  lia.
Qed.

Lemma rnd_half_even_opp (m d : Z) :
  0 < d -> rnd_half_even (- m) d = - rnd_half_even m d.
Proof.
  intros Hd. unfold rnd_half_even.
  pose proof (Z.div_mod m d ltac:(lia)) as Hdm.
  pose proof (Z.mod_pos_bound m d Hd) as Hr.
  destruct (Z.eq_dec (m mod d) 0) as [H0|H0].
  - assert (Hq : (- m) / d = - (m / d)) by (apply Z.div_opp_l_z; lia).
    assert (Hm : (- m) mod d = 0) by (apply Z.mod_opp_l_z; lia).
    rewrite Hq, Hm, H0.
    destruct (Z.ltb_spec (2 * 0) d); lia.
  - assert (Hq : (- m) / d = - (m / d) - 1) by (apply Z.div_opp_l_nz; lia).
    assert (Hm : (- m) mod d = d - m mod d) by (apply Z.mod_opp_l_nz; lia).
    rewrite Hq, Hm.
    destruct (Z.ltb_spec (2 * (d - m mod d)) d),
             (Z.ltb_spec (2 * (m mod d)) d),
             (Z.ltb_spec d (2 * (d - m mod d))),
             (Z.ltb_spec d (2 * (m mod d))); try lia.
    replace (- (m / d) - 1) with (- (m / d + 1)) by lia.
    rewrite Z.even_opp.
    replace (m / d + 1) with (Z.succ (m / d)) by lia.
    rewrite Z.even_succ, <- Z.negb_even.
    destruct (Z.even (m / d)); simpl; lia.
Qed.

Lemma round_opp (x : float) : round (opp x) = opp (round x).
Proof.
  unfold round, opp; simpl. rewrite digits_opp.
  destruct (Z.leb_spec (digits (Fnum x) - prec) 0) as [|Hs]; [reflexivity|].
  rewrite rnd_half_even_opp by (apply Z.pow_pos_nonneg; lia).
  rewrite Z.abs_opp.
  destruct (Z.eqb_spec (Z.abs (rnd_half_even (Fnum x) (2 ^ (digits (Fnum x) - prec))))
              (2 ^ prec)) as [Ha|Ha]; simpl; [|reflexivity].
  f_equal.
  set (q := rnd_half_even _ _) in *.
  assert (q = 2 ^ prec \/ q = - 2 ^ prec) as [->| ->] by lia;
    vm_compute; reflexivity.
Qed.

Lemma round_small (x : float) : Z.abs (Fnum x) < 2 ^ prec -> round x = x.
Proof.
  intros H. unfold round.
  pose proof (digits_le (Fnum x) prec ltac:(unfold prec; lia) H).
  destruct (Z.leb_spec (digits (Fnum x) - prec) 0); [reflexivity|lia].
Qed.

(** Rounding a number of [[0, B]] stays in [[0, B]] when [B] is itself
    a float. *)
Lemma round_bounded (m B j : Z) :
  0 <= j -> 0 <= B < 2 ^ prec -> 0 <= m <= B * 2 ^ j ->
  bounded (round (Float m (- j))) B j.
Proof.
  intros Hj HB Hm. unfold round, bounded; simpl.
  destruct (Z.leb_spec (digits m - prec) 0) as [Hs|Hs]; simpl.
  - assert (m < 2 ^ prec).
    { destruct (Z.ltb_spec m (2 ^ prec)) as [|Hge]; [assumption|].
      pose proof (Z.log2_le_pow2 m prec ltac:(lia)) as [Hl _].
      specialize (Hl Hge). exfalso. unfold digits in Hs.
      destruct (Z.eqb_spec m 0); [unfold prec in *; lia|].
      rewrite Z.abs_eq in Hs by lia. lia. }
    replace (- j + j) with 0 by lia. rewrite Z.mul_1_r. lia.
  - set (s := digits m - prec) in *.
    assert (Hp : 0 < 2 ^ s) by (apply Z.pow_pos_nonneg; lia).
    assert (Hlow : 2 ^ (prec - 1 + s) <= m).
    { pose proof (digits_gt m (prec - 1 + s) ltac:(unfold prec; lia)
                    ltac:(unfold s; lia)). lia. }
    assert (Hup : m < 2 ^ (prec + s)).
    { pose proof (abs_lt_digits m). replace (prec + s) with (digits m)
        by (unfold s; lia). lia. }
    assert (Hsj : s <= j).
    { destruct (Z.leb_spec s j); [assumption|exfalso].
      assert (2 ^ (prec + j) <= 2 ^ (prec - 1 + s))
        by (apply Z.pow_le_mono_r; unfold prec; lia).
      assert (B * 2 ^ j < 2 ^ prec * 2 ^ j)
        by (apply Z.mul_lt_mono_pos_r; [apply Z.pow_pos_nonneg|]; lia).
      rewrite <- Z.pow_add_r in * by (unfold prec; lia). lia. }
    set (q := rnd_half_even m (2 ^ s)).
    assert (Hq0 : 0 <= q) by (apply rnd_half_even_ge; lia).
    assert (HqB : q <= B * 2 ^ (j - s)).
    { apply rnd_half_even_le; [lia|].
      rewrite <- Z.mul_assoc, <- Z.pow_add_r by lia.
      replace (j - s + s) with j by lia. lia. }
    assert (Hq53 : q <= 2 ^ prec).
    { apply rnd_half_even_le; [lia|].
      rewrite <- Z.pow_add_r by (unfold prec; lia). lia. }
    assert (Hval : q * 2 ^ s <= B * 2 ^ j).
    { assert (2 ^ j = 2 ^ (j - s) * 2 ^ s) as ->
        by (rewrite <- Z.pow_add_r by lia; f_equal; lia).
      nia. }
    destruct (Z.eqb_spec (Z.abs q) (2 ^ prec)) as [Ha|Ha]; simpl.
    + rewrite Z.abs_eq in Ha by lia. rewrite Ha.
      change (2 ^ prec / 2) with (2 ^ (prec - 1)).
      assert (2 ^ (prec - 1) * 2 ^ (- j + s + 1 + j) = 2 ^ prec * 2 ^ s) as Hre.
      { rewrite <- !Z.pow_add_r by (unfold prec; lia). f_equal. lia. }
      rewrite Hre.
      split; [apply Z.pow_nonneg; lia|].
      split; [apply Z.pow_lt_mono_r; unfold prec; lia|].
      split; lia.
    + rewrite Z.abs_eq in Ha by lia.
      repeat split; try lia.
      replace (- j + s + j) with s by lia. lia.
Qed.

End Rounding.

(** ** The random offset of [rand_ts] stays between the bounds *)

Section Offset.

Lemma bounded_whole (x : float) (B j : Z) :
  0 <= j -> bounded x B j -> 0 <= Fexp x -> Fnum x * 2 ^ Fexp x <= B.
Proof.
  intros Hj (H0 & H1 & H2 & H3) He.
  rewrite Z.pow_add_r in H3 by lia.
  assert (0 < 2 ^ j) by (apply Z.pow_pos_nonneg; lia).
  nia.
Qed.

Lemma bounded_frac (x : float) (B j : Z) :
  0 <= j -> bounded x B j -> Fexp x < 0 -> Fnum x <= B * 2 ^ (- Fexp x).
Proof.
  intros Hj (H0 & H1 & H2 & H3) He.
  assert (2 ^ j = 2 ^ (Fexp x + j) * 2 ^ (- Fexp x)) as Hs
    by (rewrite <- Z.pow_add_r by lia; f_equal; lia).
  rewrite Hs in H3.
  assert (0 < 2 ^ (Fexp x + j)) by (apply Z.pow_pos_nonneg; lia).
  nia.
Qed.

Lemma add_zero_bounded (x : float) (B j : Z) :
  0 <= j -> B < 2 ^ prec -> bounded x B j -> bounded (add (Float 0 0) x) B j.
Proof.
  intros Hj HB Hx. pose proof Hx as (H0 & H1 & H2 & H3).
  unfold add, align; simpl.
  destruct (Z.le_gt_cases (Fexp x) 0) as [He|He].
  - rewrite Z.min_r by lia. rewrite Z.sub_diag, Z.mul_1_r.
    rewrite round_small by (simpl; lia). exact Hx.
  - rewrite Z.min_l by lia. rewrite !Z.sub_0_r, ?Z.mul_0_l, ?Z.add_0_l.
    pose proof (bounded_whole x B j Hj Hx ltac:(lia)).
    assert (0 <= Fnum x * 2 ^ Fexp x)
      by (apply Z.mul_nonneg_nonneg; [lia|apply Z.pow_nonneg; lia]).
    rewrite round_small by (simpl; lia).
    unfold bounded; simpl. repeat split; try lia.
    rewrite Z.add_0_l.
    assert (0 < 2 ^ j) by (apply Z.pow_pos_nonneg; lia). nia.
Qed.

Lemma py_round_bounded (y : float) (B j : Z) :
  0 <= j -> bounded y B j -> 0 <= py_round y <= B.
Proof.
  intros Hj Hy. pose proof Hy as (H0 & H1 & H2 & H3). unfold py_round.
  destruct (Z.leb_spec 0 (Fexp y)) as [He|He].
  - pose proof (bounded_whole y B j Hj Hy He).
    assert (0 <= 2 ^ Fexp y) by (apply Z.pow_nonneg; lia). nia.
  - assert (0 < 2 ^ (- Fexp y)) by (apply Z.pow_pos_nonneg; lia).
    split.
    + apply rnd_half_even_ge; lia.
    + apply rnd_half_even_le; [lia|]. exact (bounded_frac y B j Hj Hy He).
Qed.

(** The microseconds obtained from a fraction [r / d] of a second. *)
Lemma frac_us_bounded (r e B : Z) :
  e < 0 -> 0 <= B <= 1000000 -> 0 <= r -> r * 1000000 <= B * 2 ^ (- e) ->
  0 <= py_round (add (of_int 0) (mul (Float r e) (of_int 1000000))) <= B.
Proof.
  intros He HB Hr Hle.
  change (of_int 0) with (Float 0 0).
  change (of_int 1000000) with (Float 1000000 0).
  unfold mul; simpl.
  apply (py_round_bounded _ B (- e)); [lia|].
  apply add_zero_bounded; [lia|unfold prec; lia|].
  replace (e + 0) with (- - e) by lia.
  apply round_bounded; [lia|unfold prec; lia|lia].
Qed.

Lemma modf_us_bounded (x : float) (D j : Z) :
  0 <= j -> D < 2 ^ prec -> bounded x D j ->
  0 <= (0 * 86400 + to_int (snd (modf x))) * 1000000
       + py_round (add (of_int 0) (mul (fst (modf x)) (of_int 1000000)))
    <= D * 1000000.
Proof.
  intros Hj HD Hx. pose proof Hx as (H0 & H1 & H2 & H3).
  unfold modf, to_int.
  destruct (Z.leb_spec 0 (Fexp x)) as [He|He]; simpl.
  - destruct (Z.leb_spec 0 (Fexp x)); [|lia].
    change (py_round (add (of_int 0) (mul (Float 0 0) (of_int 1000000))))
      with 0.
    pose proof (bounded_whole x D j Hj Hx He).
    assert (0 <= 2 ^ Fexp x) by (apply Z.pow_nonneg; lia). nia.
  - set (d := 2 ^ (- Fexp x)).
    assert (Hd : 0 < d) by (apply Z.pow_pos_nonneg; lia).
    rewrite Z.rem_mod_nonneg, Z.quot_div_nonneg by lia.
    pose proof (Z.div_mod (Fnum x) d ltac:(lia)) as Hdm.
    pose proof (Z.mod_pos_bound (Fnum x) d Hd) as Hr.
    pose proof (bounded_frac x D j Hj Hx He) as Hb. fold d in Hb.
    assert (0 <= Fnum x / d) by (apply Z.div_pos; lia).
    rewrite Z.mul_1_r.
    destruct (Z.eq_dec (Fnum x mod d) 0) as [Hz|Hz].
    + rewrite Hz.
      pose proof (frac_us_bounded 0 (Fexp x) 0 He ltac:(lia) ltac:(lia)
                    ltac:(lia)).
      assert (Fnum x / d <= D) by nia. lia.
    + pose proof (frac_us_bounded (Fnum x mod d) (Fexp x) 1000000 He
                    ltac:(lia) ltac:(lia) ltac:(fold d; nia)).
      assert (Fnum x / d < D) by nia. lia.
Qed.

Lemma offset_us_nonneg (D k : Z) :
  0 <= D < 2 ^ prec -> 0 <= k < 2 ^ 53 ->
  0 <= offset_us D k <= D * 1000000.
Proof.
  intros HD Hk. unfold offset_us.
  change (of_int 0) with (Float 0 0).
  assert (Hx : bounded
            (add (Float 0 0) (mul (sub (of_int D) (Float 0 0)) (Float k (-53))))
            D 53).
  { apply add_zero_bounded; [lia|lia|].
    unfold of_int. rewrite round_small by (simpl; lia).
    unfold sub, add, opp, align; simpl.
    rewrite Z.mul_1_r, Z.add_0_r.
    rewrite round_small by (simpl; lia).
    unfold mul; simpl.
    apply (round_bounded (D * k) D 53); [lia|lia|].
    change (2 ^ prec) with (2 ^ 53) in *. nia. }
  pose proof (modf_us_bounded _ D 53 ltac:(lia) ltac:(lia) Hx) as H.
  destruct (modf _) as [f w]. exact H.
Qed.

Lemma add_opp (x y : float) : add (opp x) (opp y) = opp (add x y).
Proof.
  unfold add, align. rewrite <- round_opp. unfold opp; simpl.
  f_equal. f_equal. lia.
Qed.

Lemma mul_opp_l (x y : float) : mul (opp x) y = opp (mul x y).
Proof.
  unfold mul. rewrite <- round_opp. unfold opp; simpl.
  f_equal. f_equal. lia.
Qed.

Lemma py_round_opp (x : float) : py_round (opp x) = - py_round x.
Proof.
  unfold py_round, opp; simpl.
  destruct (Z.leb_spec 0 (Fexp x)); [lia|].
  apply rnd_half_even_opp. apply Z.pow_pos_nonneg; lia.
Qed.

Lemma to_int_opp (x : float) : to_int (opp x) = - to_int x.
Proof.
  unfold to_int, opp; simpl.
  destruct (Z.leb_spec 0 (Fexp x)); [lia|].
  apply Z.quot_opp_l.
  assert (0 < 2 ^ (- Fexp x)) by (apply Z.pow_pos_nonneg; lia). lia.
Qed.

Lemma modf_opp (x : float) :
  modf (opp x) = (opp (fst (modf x)), opp (snd (modf x))).
Proof.
  unfold modf, opp; simpl.
  destruct (Z.leb_spec 0 (Fexp x)); [reflexivity|]. simpl.
  assert (0 < 2 ^ (- Fexp x)) by (apply Z.pow_pos_nonneg; lia).
  rewrite Z.rem_opp_l, Z.quot_opp_l by lia. reflexivity.
Qed.

Lemma add_zero_opp (y : float) :
  add (Float 0 0) (opp y) = opp (add (Float 0 0) y).
Proof. exact (add_opp (Float 0 0) y). Qed.

Lemma sub_zero_opp (x : float) :
  sub (opp x) (Float 0 0) = opp (sub x (Float 0 0)).
Proof. exact (add_opp x (Float 0 0)). Qed.

Lemma offset_us_opp (D k : Z) : offset_us (- D) k = - offset_us D k.
Proof.
  unfold offset_us.
  change (of_int 0) with (Float 0 0).
  assert (of_int (- D) = opp (of_int D)) as ->
    by (unfold of_int; change (Float (- D) 0) with (opp (Float D 0));
        apply round_opp).
  rewrite sub_zero_opp, mul_opp_l, add_zero_opp, modf_opp.
  destruct (modf _) as [f w]; simpl fst; simpl snd.
  rewrite to_int_opp, mul_opp_l, add_zero_opp, py_round_opp. lia.
Qed.

(** Whatever the draw, the offset lies between zero and the distance of
    the bounds, on the side of the distance. *)
Lemma offset_us_range (D k : Z) :
  Z.abs D < 2 ^ prec -> 0 <= k < 2 ^ 53 ->
  Z.min 0 (D * 1000000) <= offset_us D k <= Z.max 0 (D * 1000000).
Proof.
  intros HD Hk. destruct (Z.le_gt_cases 0 D) as [Hs|Hs].
  - pose proof (offset_us_nonneg D k ltac:(lia) Hk). lia.
  - pose proof (offset_us_nonneg (- D) k ltac:(lia) Hk) as H.
    rewrite offset_us_opp in H. lia.
Qed.

End Offset.

(** ** The calendar *)

Section CalendarFacts.

Ltac zdiv := Z.div_mod_to_equations; lia.

Lemma in_range (a b x : Z) : a <= x < b -> In x (range a b).
Proof.
  intros H. unfold range. apply in_map_iff.
  exists (Z.to_nat (x - a)). split; [lia|]. apply in_seq. lia.
Qed.

Lemma forallb_range (f : Z -> bool) (a b : Z) :
  forallb f (range a b) = true -> forall x, a <= x < b -> f x = true.
Proof.
  intros H x Hx. rewrite forallb_forall in H. apply H, in_range, Hx.
Qed.

Lemma month_estimate_leap (n : Z) :
  0 <= n < 366 -> month_estimate_ok true n = true.
Proof. apply forallb_range. vm_compute. reflexivity. Qed.

Lemma month_estimate_common (n : Z) :
  0 <= n < 365 -> month_estimate_ok false n = true.
Proof. apply forallb_range. vm_compute. reflexivity. Qed.

Lemma days_before_year_split (a b c d : Z) :
  0 <= b <= 3 -> 0 <= c <= 24 -> 0 <= d <= 3 ->
  days_before_year (a * 400 + 1 + b * 100 + c * 4 + d)
  = a * DI400Y + b * DI100Y + c * DI4Y + d * 365.
Proof. intros. unfold days_before_year, DI400Y, DI100Y, DI4Y. zdiv. Qed.

Lemma is_leap_split (a b c d : Z) :
  0 <= b <= 3 -> 0 <= c <= 24 -> 0 <= d <= 3 ->
  is_leap (a * 400 + 1 + b * 100 + c * 4 + d)
  = (d =? 3) && (negb (c =? 24) || (b =? 3)).
Proof.
  intros. unfold is_leap.
  destruct (Z.eqb_spec d 3), (Z.eqb_spec c 24), (Z.eqb_spec b 3); simpl;
    repeat match goal with
      | |- context [?x =? ?y] => destruct (Z.eqb_spec x y); simpl
      end; try reflexivity; exfalso; zdiv.
Qed.

(** [_ord2ymd] inverts [_ymd2ord] and returns a date of the calendar. *)
Lemma ord2ymd_spec (n : Z) :
  1 <= n <= MAXORDINAL ->
  exists y m d,
    ord2ymd n = (y, m, d)
    /\ MINYEAR <= y <= MAXYEAR /\ 1 <= m <= 12 /\ 1 <= d <= days_in_month y m
    /\ ymd2ord y m d = n.
Proof.
  intros Hn. unfold MAXORDINAL, MINYEAR, MAXYEAR in *.
  unfold ord2ymd. cbv zeta.
  set (a := (n - 1) / DI400Y).
  set (r400 := (n - 1) mod DI400Y).
  set (b := r400 / DI100Y).
  set (r100 := r400 mod DI100Y).
  set (c := r100 / DI4Y).
  set (r4 := r100 mod DI4Y).
  set (d1 := r4 / 365).
  set (r1 := r4 mod 365).
  assert (Hdec : n - 1 = a * DI400Y + b * DI100Y + c * DI4Y + d1 * 365 + r1
                 /\ 0 <= a <= 24 /\ 0 <= b <= 4 /\ 0 <= c <= 24
                 /\ 0 <= d1 <= 4 /\ 0 <= r1 < 365
                 /\ (b = 4 -> c = 0 /\ d1 = 0 /\ r1 = 0)
                 /\ (d1 = 4 -> r1 = 0 /\ c <= 23)
                 /\ (a = 24 -> b = 3 -> c = 24 -> d1 <= 2)).
  { unfold a, b, c, d1, r1, r4, r100, r400, DI400Y, DI100Y, DI4Y. zdiv. }
  destruct Hdec as (Hn0 & Ha & Hb & Hc & Hd1 & Hr1 & Hb4 & Hd4 & Hmax).
  clearbody a b c d1 r1. clear r4 r100 r400.
  destruct ((d1 =? 4) || (b =? 4)) eqn:Hspecial.
  - (* the last day of a leap year *)
    exists (a * 400 + 1 + b * 100 + c * 4 + d1 - 1), 12, 31.
    split; [reflexivity|].
    apply orb_true_iff in Hspecial.
    assert (exists b' c',
               a * 400 + 1 + b * 100 + c * 4 + d1 - 1
               = a * 400 + 1 + b' * 100 + c' * 4 + 3
               /\ 0 <= b' <= 3 /\ 0 <= c' <= 24
               /\ (c' = 24 -> b' = 3)
               /\ n - 1 = a * DI400Y + b' * DI100Y + c' * DI4Y + 3 * 365 + 365)
      as (b' & c' & Hy & Hb' & Hc' & Hleap & Hn1).
    { destruct Hspecial as [H4|H4]; apply Z.eqb_eq in H4.
      - exists b, c. unfold DI400Y, DI100Y, DI4Y in *. lia.
      - exists 3, 24. unfold DI400Y, DI100Y, DI4Y in *. lia. }
    rewrite Hy. unfold ymd2ord, days_in_month, days_before_month.
    rewrite days_before_year_split, is_leap_split by lia.
    assert ((negb (c' =? 24) || (b' =? 3)) = true) as Hl.
    { destruct (Z.eqb_spec c' 24), (Z.eqb_spec b' 3); simpl; lia. }
    rewrite Hl. simpl.
    unfold DI400Y, DI100Y, DI4Y in *. lia.
  - (* any other day *)
    apply orb_false_iff in Hspecial as [H1 H2].
    apply Z.eqb_neq in H1, H2.
    set (leapyear := (d1 =? 3) && (negb (c =? 24) || (b =? 3))).
    assert (Hest : month_estimate_ok leapyear r1 = true).
    { destruct leapyear;
        [apply month_estimate_leap|apply month_estimate_common]; lia. }
    unfold month_estimate_ok in Hest. cbv zeta in Hest.
    set (y := a * 400 + 1 + b * 100 + c * 4 + d1).
    assert (Hdby : days_before_year y = n - 1 - r1).
    { unfold y. rewrite days_before_year_split by lia. lia. }
    assert (Hil : is_leap y = leapyear).
    { unfold y. rewrite is_leap_split by lia. reflexivity. }
    assert (Hy : 1 <= y <= 9999).
    { unfold y, DI400Y, DI100Y, DI4Y in *. lia. }
    assert (Hok : forall m d,
               month_day_ok leapyear r1 m d = true ->
               1 <= y <= 9999 /\ 1 <= m <= 12 /\ 1 <= d <= days_in_month y m
               /\ ymd2ord y m d = n).
    { intros m d Hmd. unfold month_day_ok in Hmd.
      repeat (apply andb_true_iff in Hmd as [Hmd ?]).
      unfold ymd2ord, days_in_month, days_before_month.
      rewrite Hdby, Hil.
      assert (DAYS_IN_MONTH m + (if (m =? 2) && leapyear then 1 else 0)
              = if (m =? 2) && leapyear then 29 else DAYS_IN_MONTH m) as Hdim.
      { destruct (Z.eqb_spec m 2) as [->|]; destruct leapyear; simpl; lia. }
      rewrite <- Hdim. lia. }
    destruct (r1 <? _).
    + eexists _, _, _. split; [reflexivity|]. apply Hok, Hest.
    + eexists _, _, _. split; [reflexivity|]. apply Hok, Hest.
Qed.

Ltac month_cases m :=
  let H := fresh in
  assert (H : m = 1 \/ m = 2 \/ m = 3 \/ m = 4 \/ m = 5 \/ m = 6 \/ m = 7
              \/ m = 8 \/ m = 9 \/ m = 10 \/ m = 11 \/ m = 12) by lia;
  repeat (destruct H as [H|H]); subst m.

Lemma days_before_year_next (y1 y2 : Z) :
  y1 < y2 ->
  days_before_year y1 + 365 + (if is_leap y1 then 1 else 0)
  <= days_before_year y2.
Proof.
  intros H. unfold days_before_year, is_leap.
  repeat match goal with
    | |- context [?x =? ?y] => destruct (Z.eqb_spec x y); simpl
    end; zdiv.
Qed.

Lemma days_before_month_next (y m1 m2 : Z) :
  1 <= m1 -> m1 < m2 -> m2 <= 12 ->
  days_before_month y m1 + days_in_month y m1 <= days_before_month y m2.
Proof.
  intros H1 H2 H3. unfold days_before_month, days_in_month.
  destruct (is_leap y); month_cases m1; month_cases m2;
    try lia; simpl; lia.
Qed.

Lemma days_in_year (y m : Z) :
  1 <= m <= 12 ->
  0 <= days_before_month y m
  /\ days_before_month y m + days_in_month y m
     <= 365 + (if is_leap y then 1 else 0).
Proof.
  intros H. unfold days_before_month, days_in_month.
  destruct (is_leap y); month_cases m; simpl; lia.
Qed.

(** Dates of the calendar in lexicographic order have ordinals in the
    same order. *)
Lemma ymd2ord_lt (y1 m1 d1 y2 m2 d2 : Z) :
  1 <= m1 <= 12 -> 1 <= d1 <= days_in_month y1 m1 ->
  1 <= m2 <= 12 -> 1 <= d2 <= days_in_month y2 m2 ->
  y1 < y2 \/ (y1 = y2 /\ (m1 < m2 \/ (m1 = m2 /\ d1 < d2))) ->
  ymd2ord y1 m1 d1 < ymd2ord y2 m2 d2.
Proof.
  intros Hm1 Hd1 Hm2 Hd2 Hlt. unfold ymd2ord.
  pose proof (days_in_year y1 m1 Hm1) as [? ?].
  pose proof (days_in_year y2 m2 Hm2) as [? ?].
  destruct Hlt as [Hy|[-> [Hm|[-> Hd]]]].
  - pose proof (days_before_year_next y1 y2 Hy). lia.
  - pose proof (days_before_month_next y2 m1 m2 ltac:(lia) Hm ltac:(lia)). lia.
  - lia.
Qed.

Lemma ymd2ord_range (y m d : Z) :
  MINYEAR <= y <= MAXYEAR -> 1 <= m <= 12 -> 1 <= d <= days_in_month y m ->
  1 <= ymd2ord y m d <= MAXORDINAL.
Proof.
  intros Hy Hm Hd. unfold MINYEAR, MAXYEAR, MAXORDINAL in *.
  pose proof (days_in_year y m Hm) as [? ?].
  unfold ymd2ord.
  assert (0 <= days_before_year y) by (unfold days_before_year; zdiv).
  split; [lia|].
  destruct (Z.eq_dec y 9999) as [->|].
  - change (days_before_year 9999) with 3651694.
    change (365 + (if is_leap 9999 then 1 else 0)) with 365 in *. lia.
  - pose proof (days_before_year_next y 9999 ltac:(lia)).
    change (days_before_year 9999) with 3651694 in *. lia.
Qed.

End CalendarFacts.

(** ** Durations and datetimes *)

Section DatetimeFacts.

Ltac zdiv := Z.div_mod_to_equations; lia.

Lemma valid_spec (t : datetime) :
  valid t = true ->
  (MINYEAR <= year t <= MAXYEAR) /\ (1 <= month t <= 12)
  /\ (1 <= day t <= days_in_month (year t) (month t))
  /\ (0 <= hour t <= 23) /\ (0 <= minute t <= 59) /\ (0 <= second t <= 59)
  /\ (0 <= microsecond t <= 999999).
Proof.
  unfold valid, valid_fields. intros H.
  repeat (apply andb_true_iff in H as [H ?]).
  repeat match goal with
    | H : (_ <=? _) = true |- _ => apply Z.leb_le in H
    end.
  lia.
Qed.

Lemma valid_intro (y mo d h mi s us : Z) :
  MINYEAR <= y <= MAXYEAR -> 1 <= mo <= 12 -> 1 <= d <= days_in_month y mo ->
  0 <= h <= 23 -> 0 <= mi <= 59 -> 0 <= s <= 59 -> 0 <= us <= 999999 ->
  valid (Datetime y mo d h mi s us) = true.
Proof.
  intros. unfold valid, valid_fields; simpl.
  repeat (apply andb_true_iff; split); apply Z.leb_le; lia.
Qed.

Lemma toordinal_range (t : datetime) :
  valid t = true -> 1 <= toordinal t <= MAXORDINAL.
Proof.
  intros H. apply valid_spec in H. unfold toordinal.
  apply ymd2ord_range; lia.
Qed.

(** The timeline position of a datetime of the calendar. *)
Lemma us_of_datetime_range (t : datetime) :
  valid t = true ->
  86400000000 <= us_of_datetime t < (MAXORDINAL + 1) * 86400000000.
Proof.
  intros H. pose proof (toordinal_range t H). apply valid_spec in H.
  unfold us_of_datetime, MAXORDINAL in *. lia.
Qed.

Lemma timedelta_of_us_ok (us : Z) :
  Z.abs us <= 999999999 * 86400000000 ->
  timedelta_of_us us
  = Ok (Timedelta (us / 1000000 / 86400) (us / 1000000 mod 86400)
          (us mod 1000000)).
Proof.
  intros H. unfold timedelta_of_us.
  destruct (Z.ltb_spec 999999999 (Z.abs (us / 1000000 / 86400)));
    [exfalso; zdiv|reflexivity].
Qed.

Lemma td_us_normal (us : Z) :
  td_us (Timedelta (us / 1000000 / 86400) (us / 1000000 mod 86400)
           (us mod 1000000)) = us.
Proof. unfold td_us; simpl. zdiv. Qed.

(** The difference of two datetimes is their distance on the timeline. *)
Lemma datetime_sub_ok (a b : datetime) :
  valid a = true -> valid b = true ->
  exists d, datetime_sub a b = Ok d
            /\ td_us d = us_of_datetime a - us_of_datetime b.
Proof.
  intros Ha Hb.
  pose proof (us_of_datetime_range a Ha).
  pose proof (us_of_datetime_range b Hb).
  unfold datetime_sub, timedelta_ints.
  set (us := (_ * 86400 + _) * 1000000 + _).
  assert (us = us_of_datetime a - us_of_datetime b) as Hus
    by (unfold us, us_of_datetime; lia).
  rewrite timedelta_of_us_ok by (unfold MAXORDINAL in *; lia).
  eexists; split; [reflexivity|]. rewrite td_us_normal. exact Hus.
Qed.

(** A whole number of seconds is its own float. *)
Lemma total_seconds_whole (d : timedelta) (D : Z) :
  td_us d = D * 1000000 -> Z.abs D < 2 ^ prec ->
  total_seconds d = of_int D.
Proof.
  intros Hd HD. unfold total_seconds, div_int. rewrite Hd.
  change (10 ^ 6) with 1000000.
  rewrite Z.mod_mul, Z.div_mul by lia. reflexivity.
Qed.

(** Adding a duration moves along the timeline, as long as the result
    stays in the calendar. *)
Lemma datetime_add_ok (t : datetime) (d : timedelta) :
  valid t = true ->
  86400000000 <= us_of_datetime t + td_us d < (MAXORDINAL + 1) * 86400000000 ->
  exists r, datetime_add t d = Ok r /\ valid r = true
            /\ us_of_datetime r = us_of_datetime t + td_us d.
Proof.
  intros Ht HT.
  pose proof (us_of_datetime_range t Ht) as Hr.
  unfold datetime_add, timedelta_ints.
  assert ((toordinal t * 86400 + (hour t * 3600 + minute t * 60 + second t))
          * 1000000 + microsecond t = us_of_datetime t) as ->
    by (unfold us_of_datetime; lia).
  rewrite timedelta_of_us_ok by (unfold MAXORDINAL in *; lia).
  cbn [rbind]. 
  set (base := Timedelta _ _ _).
  assert (((days base + days d) * 86400 + (seconds base + seconds d)) * 1000000
          + (microseconds base + microseconds d)
          = us_of_datetime t + td_us d) as ->.
  { pose proof (td_us_normal (us_of_datetime t)) as Hb. fold base in Hb.
    unfold td_us in *. lia. }
  set (T := us_of_datetime t + td_us d) in *.
  rewrite timedelta_of_us_ok by (unfold MAXORDINAL in *; lia).
  cbn [rbind days seconds microseconds].
  assert (Hdays : 1 <= T / 1000000 / 86400 <= MAXORDINAL)
    by (unfold MAXORDINAL in *; zdiv).
  destruct (Z.ltb_spec 0 (T / 1000000 / 86400)); [|lia].
  destruct (Z.leb_spec (T / 1000000 / 86400) MAXORDINAL); [|lia].
  cbn [andb].
  destruct (ord2ymd_spec _ Hdays) as (y & m & dd & -> & Hy & Hm & Hdd & Hord).
  eexists; split; [reflexivity|]. split.
  - apply valid_intro; try assumption; zdiv.
  - unfold us_of_datetime, toordinal; simpl. rewrite Hord. zdiv.
Qed.

Lemma lex_false (x y : Z) (r : bool) :
  (x <? y) || ((x =? y) && r) = false -> y < x \/ (x = y /\ r = false).
Proof.
  destruct (Z.ltb_spec x y), (Z.eqb_spec x y); simpl; intros Hr;
    try discriminate; [right; split; [lia|exact Hr]|left; lia].
Qed.

(** Datetimes of the calendar compare as their timeline positions. *)
Lemma datetime_leb_of_us (a b : datetime) :
  valid a = true -> valid b = true ->
  us_of_datetime a <= us_of_datetime b -> datetime_leb a b = true.
Proof.
  intros Ha Hb Hle.
  apply valid_spec in Ha, Hb.
  destruct Ha as (Hya & Hma & Hda & Hha & Hmia & Hsa & Husa).
  destruct Hb as (Hyb & Hmb & Hdb & Hhb & Hmib & Hsb & Husb).
  pose proof (ymd2ord_lt (year b) (month b) (day b) (year a) (month a) (day a)
                Hmb Hdb Hma Hda) as Hord.
  unfold us_of_datetime, toordinal in Hle.
  destruct (datetime_leb a b) eqn:E; [reflexivity|exfalso].
  unfold datetime_leb, fields, lex_leb in E.
  apply lex_false in E as [E|[Ey E]]; [specialize (Hord ltac:(lia)); lia|].
  apply lex_false in E as [E|[Em E]]; [specialize (Hord ltac:(lia)); lia|].
  apply lex_false in E as [E|[Ed E]]; [specialize (Hord ltac:(lia)); lia|].
  assert (ymd2ord (year a) (month a) (day a)
          = ymd2ord (year b) (month b) (day b)) as Heq by congruence.
  rewrite Heq in Hle.
  set (o := ymd2ord _ _ _) in *. clearbody o. clear Hord Heq.
  apply lex_false in E as [E|[Eh E]]; [lia|].
  apply lex_false in E as [E|[Emi E]]; [lia|].
  apply lex_false in E as [E|[Es E]]; [lia|].
  apply lex_false in E as [E|[Eus E]]; [lia|discriminate].
Qed.

Lemma timedelta_float_seconds_offset (D k : Z) :
  timedelta_float_seconds 0
    (add (of_int 0) (mul (sub (of_int D) (of_int 0)) (Float k (-53))))
  = timedelta_of_us (offset_us D k).
Proof.
  unfold timedelta_float_seconds, offset_us.
  destruct (modf _) as [f w]. reflexivity.
Qed.

End DatetimeFacts.

(** ** [strptime] *)

Section StrptimeFacts.

Lemma new_datetime_ok (y mo d h mi s us : Z) (t : datetime) :
  new_datetime y mo d h mi s us = Ok t ->
  valid t = true /\ microsecond t = us.
Proof.
  unfold new_datetime. destruct (valid_fields y mo d h mi s us) eqn:Hv;
    [|discriminate].
  intros [= <-]. split; [exact Hv|reflexivity].
Qed.

(** A parsed bound is a datetime of the calendar, on a whole second. *)
Lemma strptime_ok (ts : string) (t : datetime) :
  strptime ts = Ok t -> valid t = true /\ microsecond t = 0.
Proof.
  unfold strptime.
  destruct (format_regex _) as [|[[[[[[y mo] d] h] mi] s] [|c rest]] l];
    try discriminate.
  apply new_datetime_ok.
Qed.

(** Parsing either succeeds or raises [ValueError]. *)
Lemma strptime_cases (ts : string) :
  (exists t, strptime ts = Ok t) \/ strptime ts = Raise ValueError.
Proof.
  unfold strptime.
  destruct (format_regex _) as [|[[[[[[y mo] d] h] mi] s] [|c rest]] l];
    try (right; reflexivity).
  unfold new_datetime. destruct (valid_fields _ _ _ _ _ _ _);
    [left; eexists; reflexivity|right; reflexivity].
Qed.

End StrptimeFacts.

(** ** [rand_int] and [rand_ts] *)

Section RandValue.

Lemma draw_53 (w : World) : 0 <= draw w mod 2 ^ 53 < 2 ^ 53.
Proof. apply Z.mod_pos_bound. reflexivity. Qed.

(** [rand_int] in a non-empty range: one draw, reduced into the range. *)
Lemma rand_int_ok (min max : Z) (w : World) :
  min < max ->
  RandomData.rand_int min max w
  = (Ok (min + draw w mod (max - min)), advance w).
Proof.
  intros H. unfold RandomData.rand_int, Random.randrange.
  destruct (Z.ltb_spec 0 (max - min)); [|lia]. reflexivity.
Qed.

(** [rand_int] in an empty range: no draw, [ValueError]. *)
Lemma rand_int_empty (min max : Z) (w : World) :
  max <= min -> RandomData.rand_int min max w = (Raise ValueError, w).
Proof.
  intros H. unfold RandomData.rand_int, Random.randrange.
  destruct (Z.ltb_spec 0 (max - min)); [lia|]. reflexivity.
Qed.

(** [rand_ts] between two parsed bounds [a] and [b]: one draw, and the
    result lies on the timeline at [a] plus the offset.  The order of
    the bounds does not matter. *)
Lemma rand_ts_ok (smin smax : string) (a b : datetime) (w : World) :
  strptime smin = Ok a -> strptime smax = Ok b ->
  exists r,
    RandomData.rand_ts smin smax w = (Ok r, advance w)
    /\ r = ts_of a b (draw w mod 2 ^ 53)
    /\ valid r = true
    /\ Z.min (us_of_datetime a) (us_of_datetime b) <= us_of_datetime r
       <= Z.max (us_of_datetime a) (us_of_datetime b).
Proof.
  intros Hsa Hsb.
  destruct (strptime_ok _ _ Hsa) as [Ha Ha0].
  destruct (strptime_ok _ _ Hsb) as [Hb Hb0].
  pose proof (us_of_datetime_range a Ha) as Hra.
  pose proof (us_of_datetime_range b Hb) as Hrb.
  set (D := (us_of_datetime b - us_of_datetime a) / 1000000).
  assert (HD : us_of_datetime b - us_of_datetime a = D * 1000000).
  { unfold D, us_of_datetime. rewrite Ha0, Hb0, !Z.add_0_r.
    rewrite <- Z.mul_sub_distr_r, Z.div_mul; lia. }
  assert (HDabs : Z.abs D < 2 ^ prec)
    by (unfold MAXORDINAL, prec in *; lia).
  pose proof (offset_us_range D (draw w mod 2 ^ 53) HDabs (draw_53 w)) as Hoff.
  destruct (datetime_sub_ok b a Hb Ha) as (d & Hsub & Hd).
  unfold ts_of, ts_value.
  unfold RandomData.rand_ts, RandomData.str_to_ts, lift, bind.
  rewrite Hsa, Hsb, Hsub. cbn [rbind].
  rewrite (total_seconds_whole d D) by (try lia; congruence).
  unfold Random.uniform, Random.random, Random.next_raw, bind, ret.
  fold (draw w). fold (advance w).
  rewrite timedelta_float_seconds_offset.
  rewrite timedelta_of_us_ok by (unfold MAXORDINAL in *; lia).
  cbn [rbind].
  set (td := Timedelta _ _ _).
  assert (Htd : td_us td = offset_us D (draw w mod 2 ^ 53))
    by apply td_us_normal.
  destruct (datetime_add_ok a td Ha) as (r & Hadd & Hvr & Hur).
  { rewrite Htd. lia. }
  exists r. rewrite Hadd, Hur, Htd. repeat split; try assumption; lia.
Qed.

Lemma lex_true (x y : Z) (r : bool) :
  (x <? y) || ((x =? y) && r) = true -> x < y \/ (x = y /\ r = true).
Proof.
  destruct (Z.ltb_spec x y), (Z.eqb_spec x y); simpl; intros Hr;
    try discriminate; try (left; lia). right; split; [lia|exact Hr].
Qed.

Lemma us_of_datetime_leb (a b : datetime) :
  valid a = true -> valid b = true ->
  datetime_leb a b = true -> us_of_datetime a <= us_of_datetime b.
Proof.
  intros Ha Hb E.
  apply valid_spec in Ha, Hb.
  destruct Ha as (Hya & Hma & Hda & Hha & Hmia & Hsa & Husa).
  destruct Hb as (Hyb & Hmb & Hdb & Hhb & Hmib & Hsb & Husb).
  pose proof (ymd2ord_lt (year a) (month a) (day a) (year b) (month b) (day b)
                Hma Hda Hmb Hdb) as Hord.
  unfold us_of_datetime, toordinal.
  unfold datetime_leb, fields, lex_leb in E.
  apply lex_true in E as [E|[Ey E]]; [specialize (Hord ltac:(lia)); lia|].
  apply lex_true in E as [E|[Em E]]; [specialize (Hord ltac:(lia)); lia|].
  apply lex_true in E as [E|[Ed E]]; [specialize (Hord ltac:(lia)); lia|].
  assert (ymd2ord (year a) (month a) (day a)
          = ymd2ord (year b) (month b) (day b)) as Heq by congruence.
  rewrite Heq.
  set (o := ymd2ord _ _ _) in *. clearbody o. clear Hord Heq.
  apply lex_true in E as [E|[Eh E]]; [lia|].
  apply lex_true in E as [E|[Emi E]]; [lia|].
  apply lex_true in E as [E|[Es E]]; [lia|].
  apply lex_true in E as [E|[Eus E]]; lia.
Qed.

(** The result of [rand_ts] lies between the bounds, whichever is the
    earlier one. *)
Lemma rand_ts_between (smin smax : string) (a b : datetime) (w : World) :
  strptime smin = Ok a -> strptime smax = Ok b ->
  exists r,
    RandomData.rand_ts smin smax w = (Ok r, advance w)
    /\ r = ts_of a b (draw w mod 2 ^ 53)
    /\ valid r = true
    /\ (if datetime_leb a b then between a r b else between b r a) = true.
Proof.
  intros Hsa Hsb.
  destruct (strptime_ok _ _ Hsa) as [Ha _].
  destruct (strptime_ok _ _ Hsb) as [Hb _].
  destruct (rand_ts_ok smin smax a b w Hsa Hsb) as (r & Hr & Heq & Hv & Hus).
  exists r. repeat split; try assumption.
  unfold between.
  destruct (datetime_leb a b) eqn:Hab.
  - pose proof (us_of_datetime_leb a b Ha Hb Hab).
    rewrite !datetime_leb_of_us by (try assumption; lia). reflexivity.
  - assert (us_of_datetime b <= us_of_datetime a).
    { destruct (Z.le_gt_cases (us_of_datetime b) (us_of_datetime a));
        [assumption|].
      rewrite datetime_leb_of_us in Hab by (try assumption; lia).
      discriminate. }
    rewrite !datetime_leb_of_us by (try assumption; lia). reflexivity.
Qed.

End RandValue.

(** ** Integer fields *)

Section IntegerFields.

(** X11. The fence of an Integer field: with [min < max], whatever the
    random source draws, the field is built after one draw and its value
    satisfies [min <= value < max].  How the values are distributed over
    the range is a matter of the generator and is not stated here. *)
Theorem rand_int_in_range (name : string) (min max : Z) (w : World) :
  min < max ->
  exists v,
    RandomData.new name "int" (PInt min) (PInt max) w
    = (Ok (RandomData.Build name (PInt min) (PInt max) (PInt v)), advance w)
    /\ min <= v < max.
Proof.
  intros H. exists (min + draw w mod (max - min)). split.
  - unfold RandomData.new, RandomData.rand_value, bind.
    change (String.eqb "int" "int") with true. cbv beta iota.
    rewrite rand_int_ok by assumption. reflexivity.
  - pose proof (Z.mod_pos_bound (draw w) (max - min) ltac:(lia)). lia.
Qed.

Lemma rand_int_in_range_witness :
  1 < 50
  /\ exists v,
      RandomData.new "depth" "int" (PInt 1) (PInt 50) sample_world
      = (Ok (RandomData.Build "depth" (PInt 1) (PInt 50) (PInt v)),
         advance sample_world)
      /\ 1 <= v < 50.
Proof.
  split; [lia|]. apply (rand_int_in_range "depth" 1 50 sample_world). lia.
Defined.

(** Every value of the half-open interval is the outcome of some draw. *)
Lemma rand_int_covers_range (min max v : Z) :
  min <= v < max ->
  exists w, RandomData.rand_int min max w = (Ok v, advance w).
Proof.
  intros H. exists (world_of (fun _ => Z.to_N (v - min))).
  rewrite rand_int_ok by lia. f_equal. f_equal.
  unfold draw, world_of; simpl. rewrite Z2N.id by lia.
  rewrite Z.mod_small by lia. lia.
Qed.

(** C9. Integer value generation raises an error whenever [min >= max]:
    [randrange] refuses the empty range with [ValueError] before it
    draws anything. *)
Theorem rand_int_empty_range_raises (name : string) (min max : Z) (w : World) :
  min >= max ->
  RandomData.rand_int min max w = (Raise ValueError, w)
  /\ RandomData.new name "int" (PInt min) (PInt max) w = (Raise ValueError, w).
Proof.
  intros H. split; [apply rand_int_empty; lia|].
  unfold RandomData.new, RandomData.rand_value, bind.
  change (String.eqb "int" "int") with true. cbv beta iota.
  rewrite rand_int_empty by lia. reflexivity.
Qed.

Lemma rand_int_empty_range_raises_witness :
  5 >= 5
  /\ RandomData.rand_int 5 5 sample_world = (Raise ValueError, sample_world)
  /\ RandomData.new "type" "int" (PInt 5) (PInt 5) sample_world
     = (Raise ValueError, sample_world).
Proof.
  split; [lia|]. apply (rand_int_empty_range_raises "type" 5 5 sample_world).
  lia.
Defined.

End IntegerFields.

(** ** Timestamp fields *)

Section TimestampFields.

(** C6. For every Timestamp field whose bounds parse, with [min <= max],
    and for every draw of the random source, the generated value
    satisfies [min <= value <= max]. *)
Theorem rand_ts_within_bounds (smin smax : string) (a b : datetime) (w : World) :
  strptime smin = Ok a -> strptime smax = Ok b -> datetime_leb a b = true ->
  exists r,
    RandomData.rand_ts smin smax w = (Ok r, advance w)
    /\ datetime_leb a r = true /\ datetime_leb r b = true.
Proof.
  intros Ha Hb Hab.
  destruct (rand_ts_between smin smax a b w Ha Hb) as (r & Hr & _ & _ & Hbt).
  rewrite Hab in Hbt. unfold between in Hbt.
  apply andb_true_iff in Hbt. exists r. tauto.
Qed.

Lemma rand_ts_within_bounds_witness :
  strptime "2005-01-01 23:56:42" = Ok (Datetime 2005 1 1 23 56 42 0)
  /\ strptime "2016-01-01 10:50:00" = Ok (Datetime 2016 1 1 10 50 0 0)
  /\ datetime_leb (Datetime 2005 1 1 23 56 42 0) (Datetime 2016 1 1 10 50 0 0)
     = true
  /\ exists r,
      RandomData.rand_ts "2005-01-01 23:56:42" "2016-01-01 10:50:00"
        sample_world = (Ok r, advance sample_world)
      /\ datetime_leb (Datetime 2005 1 1 23 56 42 0) r = true
      /\ datetime_leb r (Datetime 2016 1 1 10 50 0 0) = true.
Proof.
  split; [reflexivity|]. split; [reflexivity|]. split; [reflexivity|].
  apply (rand_ts_within_bounds "2005-01-01 23:56:42" "2016-01-01 10:50:00"
           (Datetime 2005 1 1 23 56 42 0) (Datetime 2016 1 1 10 50 0 0)
           sample_world); reflexivity.
Defined.

(** The window of the [ts] field of a record, for every draw. *)
Lemma rand_ts_record_window (w : World) :
  exists r,
    RandomData.rand_ts "2005-01-01 23:56:42" "2016-01-01 10:50:00" w
    = (Ok r, advance w)
    /\ datetime_leb (Datetime 2005 1 1 23 56 42 0) r = true
    /\ datetime_leb r (Datetime 2016 1 1 10 50 0 0) = true.
Proof.
  destruct (rand_ts_between "2005-01-01 23:56:42" "2016-01-01 10:50:00"
              (Datetime 2005 1 1 23 56 42 0) (Datetime 2016 1 1 10 50 0 0) w
              eq_refl eq_refl) as (r & Hr & _ & _ & Hbt).
  change (datetime_leb (Datetime 2005 1 1 23 56 42 0)
            (Datetime 2016 1 1 10 50 0 0)) with true in Hbt.
  unfold between in Hbt. apply andb_true_iff in Hbt. exists r. tauto.
Qed.

(** With reversed bounds, [rand_ts] returns a value.
    (C4 as stated: it should raise.) *)
Lemma rand_ts_reversed_bounds_returns :
  exists a b,
    strptime "2016-01-01 10:50:00" = Ok a
    /\ strptime "2005-01-01 23:56:42" = Ok b
    /\ datetime_leb a b = false
    /\ fst (RandomData.rand_ts "2016-01-01 10:50:00" "2005-01-01 23:56:42"
              sample_world)
       = Ok (Datetime 2016 1 1 10 49 59 999524).
Proof.
  eexists _, _. split; [reflexivity|]. split; [reflexivity|].
  split; vm_compute; reflexivity.
Qed.

(** C4, amended. Timestamp value generation raises an error exactly when
    one of the bound strings cannot be parsed as a calendar timestamp in
    second resolution, and the error is [ValueError].  When both bounds
    parse it returns a value between them, also when [max < min]. *)
Theorem rand_ts_raises_iff_unparsable (smin smax : string) (w : World) :
  match strptime smin, strptime smax with
  | Ok a, Ok b =>
      exists r,
        RandomData.rand_ts smin smax w = (Ok r, advance w)
        /\ (if datetime_leb a b then between a r b else between b r a) = true
  | _, _ => RandomData.rand_ts smin smax w = (Raise ValueError, w)
  end.
Proof.
  destruct (strptime_cases smin) as [[a Ha]|Ha];
    destruct (strptime_cases smax) as [[b Hb]|Hb]; rewrite Ha, ?Hb.
  - destruct (rand_ts_between smin smax a b w Ha Hb) as (r & Hr & _ & _ & Hbt).
    exists r. split; assumption.
  - unfold RandomData.rand_ts, RandomData.str_to_ts, lift, bind.
    rewrite Ha, Hb. reflexivity.
  - unfold RandomData.rand_ts, RandomData.str_to_ts, lift, bind.
    rewrite Ha. reflexivity.
  - unfold RandomData.rand_ts, RandomData.str_to_ts, lift, bind.
    rewrite Ha. reflexivity.
Qed.

End TimestampFields.


(** ** Records *)

Section Records.

Lemma new_int (name : string) (min max : Z) (w : World) :
  min < max ->
  RandomData.new name "int" (PInt min) (PInt max) w
  = (Ok (RandomData.Build name (PInt min) (PInt max)
           (PInt (min + draw w mod (max - min)))), advance w).
Proof.
  intros H. unfold RandomData.new, RandomData.rand_value, bind.
  change (String.eqb "int" "int") with true. cbv beta iota.
  rewrite rand_int_ok by assumption. reflexivity.
Qed.

Lemma new_ts (name smin smax : string) (a b : datetime) (w : World) :
  strptime smin = Ok a -> strptime smax = Ok b ->
  RandomData.new name "ts" (PStr smin) (PStr smax) w
  = (Ok (RandomData.Build name (PStr smin) (PStr smax)
           (PDatetime (ts_of a b (draw w mod 2 ^ 53)))), advance w).
Proof.
  intros Ha Hb. unfold RandomData.new, RandomData.rand_value, bind.
  change (String.eqb "ts" "int") with false.
  change (String.eqb "ts" "ts") with true. cbv beta iota.
  destruct (rand_ts_ok smin smax a b w Ha Hb) as (r & -> & -> & _).
  reflexivity.
Qed.

(** [DataString()] never raises: it consumes seven draws and returns the
    record made of them. *)
Lemma DataString_new_ok (w : World) :
  DataString.new w = (Ok (record_at w), adv 7 w).
Proof.
  unfold DataString.new, RandomData.new_default, bind.
  rewrite new_int by lia.
  rewrite new_int by lia.
  rewrite (new_ts "ts" _ _ ts_min ts_max) by reflexivity.
  rewrite !new_int by lia.
  reflexivity.
Qed.

End Records.


(** ** Text *)

Section TextFacts.

Lemma app_cons (c : ascii) (s t : string) :
  String c s +:+ t = String c (s +:+ t).
Proof. reflexivity. Qed.

Lemma app_empty_l (t : string) : "" +:+ t = t.
Proof. reflexivity. Qed.

Lemma app_empty_r (s : string) : s +:+ "" = s.
Proof.
  induction s as [|c s IH]; [reflexivity|]. rewrite app_cons, IH. reflexivity.
Qed.

Lemma all_chars_app (p : ascii -> bool) (s t : string) :
  all_chars p (s +:+ t) = all_chars p s && all_chars p t.
Proof.
  induction s as [|c s IH]; [reflexivity|].
  rewrite app_cons. simpl. rewrite IH, andb_assoc. reflexivity.
Qed.

Lemma all_chars_impl (p q : ascii -> bool) (s : string) :
  (forall c, p c = true -> q c = true) ->
  all_chars p s = true -> all_chars q s = true.
Proof.
  intros Hpq. induction s as [|c s IH]; simpl; [reflexivity|].
  intros H. apply andb_true_iff in H as [Hc Hs].
  rewrite (Hpq c Hc), (IH Hs). reflexivity.
Qed.

Lemma uint_plain (d : Decimal.uint) :
  all_chars plain (NilEmpty.string_of_uint d) = true.
Proof. induction d; simpl; try rewrite IHd; reflexivity. Qed.

Lemma str_int_plain (n : Z) : all_chars plain (str_int n) = true.
Proof.
  unfold str_int, NilZero.string_of_int, NilZero.string_of_uint.
  destruct (Z.to_int n) as [d|d]; destruct d; simpl;
    try reflexivity; apply uint_plain.
Qed.

Lemma zeros_plain (n : nat) : all_chars plain (zeros n) = true.
Proof. induction n; simpl; [reflexivity|exact IHn]. Qed.

Lemma fmt_0d_plain (w : nat) (n : Z) : all_chars plain (fmt_0d w n) = true.
Proof.
  unfold fmt_0d. destruct (n <? 0); simpl;
    rewrite all_chars_app, zeros_plain, str_int_plain; reflexivity.
Qed.

Lemma str_datetime_plain (t : datetime) :
  all_chars plain (str_datetime t) = true.
Proof.
  unfold str_datetime.
  destruct (microsecond t =? 0);
    repeat (rewrite all_chars_app || rewrite fmt_0d_plain); reflexivity.
Qed.

Lemma join_plain (l : list string) :
  Forall (fun s => all_chars plain s = true) l ->
  all_chars plain (join "," l) = true.
Proof.
  induction 1 as [|s l Hs Hl IH]; [reflexivity|].
  destruct l as [|s' l']; [exact Hs|].
  change (join "," (s :: s' :: l')) with (s +:+ "," +:+ join "," (s' :: l')).
  rewrite !all_chars_app, Hs, IH. reflexivity.
Qed.

Lemma plain_no_newline (s : string) :
  all_chars plain s = true -> all_chars no_newline s = true.
Proof.
  apply all_chars_impl. intros c.
  destruct c as [[|] [|] [|] [|] [|] [|] [|] [|]]; vm_compute; congruence.
Qed.

(** A text without newline is one line. *)
Lemma lines_one (s : string) : all_chars no_newline s = true -> lines s = [s].
Proof.
  induction s as [|c s IH]; simpl; [reflexivity|].
  intros H. apply andb_true_iff in H as [Hc Hs]. unfold no_newline in Hc.
  destruct (Ascii.eqb c newline); [discriminate|].
  rewrite (IH Hs). reflexivity.
Qed.

Lemma lines_app_newline (s t : string) :
  all_chars no_newline s = true ->
  lines (s +:+ String newline t) = s :: lines t.
Proof.
  induction s as [|c s IH]; [reflexivity|].
  rewrite app_cons. simpl.
  intros H. apply andb_true_iff in H as [Hc Hs]. unfold no_newline in Hc.
  destruct (Ascii.eqb c newline); [discriminate|].
  rewrite (IH Hs). reflexivity.
Qed.

(** A first line followed by lines that each start with a newline. *)
Lemma lines_cat (h : string) (vs : list string) :
  all_chars no_newline h = true ->
  Forall (fun s => all_chars no_newline s = true) vs ->
  lines (h +:+ cat (map (String newline) vs)) = h :: vs.
Proof.
  intros Hh Hvs. revert h Hh.
  induction Hvs as [|v vs Hv Hvs IH]; intros h Hh; cbn [map cat].
  - rewrite app_empty_r. apply lines_one, Hh.
  - rewrite app_cons, lines_app_newline by assumption.
    rewrite IH by assumption. reflexivity.
Qed.

End TextFacts.


(** ** The flat serializer *)

Section Flat.

Lemma app_assoc_str (s t u : string) : (s +:+ t) +:+ u = s +:+ (t +:+ u).
Proof.
  induction s as [|c s IH]; [reflexivity|]. rewrite !app_cons, IH. reflexivity.
Qed.

Lemma adv_set_files (n : nat) (w : World) (f : gmap string string) :
  adv n (set_files w f) = set_files (adv n w) f.
Proof.
  revert w. induction n as [|n IH]; intros w; [reflexivity|].
  exact (IH (advance w)).
Qed.

Lemma adv_add (n m : nat) (w : World) : adv (n + m) w = adv m (adv n w).
Proof. revert w. induction n as [|n IH]; intros w; [reflexivity|]. apply IH. Qed.

Lemma records_set_files (n : nat) (w : World) (f : gmap string string) :
  records n (set_files w f) = records n w.
Proof.
  revert w. induction n as [|n IH]; intros w; [reflexivity|].
  cbn [records]. rewrite (adv_set_files 7), IH. reflexivity.
Qed.

Lemma adv_set_elements (n : nat) (w : World) (h : list node) :
  adv n (set_elements w h) = set_elements (adv n w) h.
Proof.
  revert w. induction n as [|n IH]; intros w; [reflexivity|].
  exact (IH (advance w)).
Qed.

Lemma records_set_elements (n : nat) (w : World) (h : list node) :
  records n (set_elements w h) = records n w.
Proof.
  revert w. induction n as [|n IH]; intros w; [reflexivity|].
  cbn [records]. rewrite (adv_set_elements 7), IH. reflexivity.
Qed.

Lemma length_records (n : nat) (w : World) : length (records n w) = n.
Proof. revert w. induction n as [|n IH]; intros w; simpl; [|rewrite IH]; reflexivity. Qed.

Lemma length_range (a b : Z) : length (range a b) = Z.to_nat (b - a).
Proof. unfold range. rewrite length_map, length_seq. reflexivity. Qed.

Lemma headers_record (w : World) :
  DataString.headers (record_at w)
  = "start_page,user,ts,depth,duration,transmit,type".
Proof.
  unfold DataString.headers, record_at, record_of.
  cbn [DataString.string_ map RandomData.name]. reflexivity.
Qed.

Lemma values_plain (w : World) :
  all_chars plain (DataString.values (record_at w)) = true.
Proof.
  unfold DataString.values, record_at, record_of.
  cbn [DataString.string_ map RandomData.value str].
  apply join_plain.
  repeat match goal with
    | |- Forall _ (str_int _ :: _) =>
        apply Forall_cons; split; [exact (str_int_plain _)|]
    | |- Forall _ (str_datetime _ :: _) =>
        apply Forall_cons; split; [exact (str_datetime_plain _)|]
    end.
  apply Forall_nil. exact I.
Qed.

(** Successive calls of [DataString()] return [records]. *)
Lemma map_m_records {A} (l : list A) (w : World) :
  map_m (fun _ => DataString.new) l w
  = (Ok (records (length l) w), adv (7 * length l) w).
Proof.
  revert w. induction l as [|x l IH]; intros w; [reflexivity|].
  cbn [map_m]. unfold bind at 1. rewrite DataString_new_ok.
  unfold bind at 1. rewrite IH. unfold ret.
  replace (7 * length (x :: l))%nat with (7 + 7 * length l)%nat
    by (simpl; lia).
  rewrite (adv_add 7). reflexivity.
Qed.

(** The loop of [generate_csv]: each round appends a newline and the
    values of a fresh record to the file. *)
Lemma csv_loop {A} (file : string) (l : list A) (w : World) (c : string) :
  files w !! file = Some c ->
  for_each l (fun _ =>
      let* row := DataString.new in
      File.write file (String newline (DataString.values row))) w
  = (Ok tt,
     set_files (adv (7 * length l) w)
       (<[file := c +:+ cat (map (fun r => String newline (DataString.values r))
                                (records (length l) w))]> (files w))).
Proof.
  revert w c. induction l as [|x l IH]; intros w c Hc.
  - cbn [for_each length records map cat]. unfold ret.
    rewrite app_empty_r, insert_id by assumption.
    destruct w; reflexivity.
  - cbn [for_each]. unfold bind at 1. unfold bind at 1.
    rewrite DataString_new_ok. unfold File.write at 1.
    change (files (adv 7 w)) with (files w). rewrite Hc.
    rewrite (IH _ (c +:+ String newline (DataString.values (record_at w))))
      by apply lookup_insert_eq.
    f_equal.
    replace (7 * length (x :: l))%nat with (7 + 7 * length l)%nat
      by (simpl; lia).
    rewrite (adv_add 7), adv_set_files, records_set_files.
    cbn [length records map cat].
    rewrite app_assoc_str.
    unfold set_files; cbn [rng files denied elements].
    rewrite insert_insert_eq. reflexivity.
Qed.

(** The whole run of [generate_csv] when the destination can be opened. *)
Lemma generate_csv_run (file : string) (N : Z) (w : World) :
  file ∉ denied w ->
  generate_csv file N w
  = (Ok tt,
     set_files (adv (7 * Z.to_nat (N - 1)) (adv 7 w))
       (<[file := DataString.headers (record_at w)
                  +:+ cat (map (fun r => String newline (DataString.values r))
                             (records (Z.to_nat (N - 1)) (adv 7 w)))]>
          (files w))).
Proof.
  intros Hfile. unfold generate_csv, measure_time.
  unfold bind at 1. unfold File.open_w at 1.
  destruct (decide (file ∈ denied w)) as [Hin|_]; [contradiction|].
  unfold bind at 1. unfold bind at 1. rewrite DataString_new_ok.
  unfold File.write at 1.
  change (files (adv 7 (set_files w (<[file:=""]> (files w)))))
    with (<[file:=""]> (files w)).
  rewrite lookup_insert_eq, app_empty_l.
  rewrite (csv_loop file _ _ (DataString.headers (record_at w)))
    by apply lookup_insert_eq.
  rewrite length_range. f_equal.
  repeat (rewrite adv_set_files || rewrite records_set_files).
  unfold set_files; cbn [rng files denied elements].
  rewrite !insert_insert_eq. reflexivity.
Qed.

(** The lines of the flat file: the header, then the values of each
    record. *)
Lemma csv_lines_records (n : nat) (w0 w : World) :
  lines (DataString.headers (record_at w0)
         +:+ cat (map (fun r => String newline (DataString.values r))
                    (records n w)))
  = DataString.headers (record_at w0) :: map DataString.values (records n w).
Proof.
  rewrite <- (map_map DataString.values (String newline)).
  apply lines_cat; [rewrite headers_record; reflexivity|].
  revert w. induction n as [|n IH]; intros w; cbn [records map]; constructor.
  - apply plain_no_newline, values_plain.
  - apply IH.
Qed.

(** C8. [headers()] returns the same string for any two records, and that
    string is the seven field names, comma-joined, in declaration order:
    [start_page,user,ts,depth,duration,transmit,type]. *)
Theorem headers_identical (w1 w2 : World) :
  exists d1 d2,
    fst (DataString.new w1) = Ok d1 /\ fst (DataString.new w2) = Ok d2
    /\ DataString.headers d1 = DataString.headers d2
    /\ DataString.headers d1
       = "start_page,user,ts,depth,duration,transmit,type".
Proof.
  exists (record_at w1), (record_at w2).
  rewrite !DataString_new_ok, !headers_record. repeat split; reflexivity.
Qed.

(** C1. For every row count [N], the flat serializer writes one header
    line followed by [N - 1] data lines (none when [N <= 1]); the data
    lines are the [values()] of the records that successive calls of
    [DataString()] return after the header's record; a single newline
    precedes each data line and nothing follows the last one.  The file
    has as many lines as rows were requested: [N] lines when [N >= 1],
    five lines for five rows. *)
Theorem generate_csv_lines (file : string) (N : Z) (w : World) :
  file ∉ denied w ->
  exists header rows w1 w2 w' content,
    DataString.new w = (Ok header, w1)
    /\ map_m (fun _ => DataString.new) (range 1 N) w1 = (Ok rows, w2)
    /\ length rows = Z.to_nat (N - 1)
    /\ generate_csv file N w = (Ok tt, w')
    /\ files w' !! file = Some content
    /\ content
       = DataString.headers header
         +:+ cat (map (fun r => String newline (DataString.values r)) rows)
    /\ lines content
       = DataString.headers header :: map DataString.values rows
    /\ length (lines content) = S (Z.to_nat (N - 1))
    /\ (1 <= N -> Z.of_nat (length (lines content)) = N).
Proof.
  intros Hfile.
  eexists (record_at w), (records (Z.to_nat (N - 1)) (adv 7 w)), _, _, _, _.
  split; [apply DataString_new_ok|].
  split; [rewrite map_m_records, length_range; reflexivity|].
  split; [apply length_records|].
  split; [apply generate_csv_run, Hfile|].
  split; [apply lookup_insert_eq|].
  split; [reflexivity|].
  split; [apply csv_lines_records|].
  rewrite csv_lines_records. cbn [length].
  rewrite length_map, length_records.
  split; [reflexivity|]. intros HN. lia.
Qed.

Lemma generate_csv_lines_witness :
  ("data.csv" ∉ denied sample_world)
  /\ exists header rows w1 w2 w' content,
      DataString.new sample_world = (Ok header, w1)
      /\ map_m (fun _ => DataString.new) (range 1 5) w1 = (Ok rows, w2)
      /\ length rows = Z.to_nat (5 - 1)
      /\ generate_csv "data.csv" 5 sample_world = (Ok tt, w')
      /\ files w' !! "data.csv" = Some content
      /\ content
         = DataString.headers header
           +:+ cat (map (fun r => String newline (DataString.values r)) rows)
      /\ lines content
         = DataString.headers header :: map DataString.values rows
      /\ length (lines content) = S (Z.to_nat (5 - 1))
      /\ (1 <= 5 -> Z.of_nat (length (lines content)) = 5).
Proof.
  assert (H : "data.csv" ∉ denied sample_world) by (vm_compute; set_solver).
  split; [exact H|].
  exact (generate_csv_lines "data.csv" 5 sample_world H).
Defined.

End Flat.


(** ** The nested serializer: building the tree *)

Section Nested.

(** The inner loop: every field becomes a new leaf object, linked as the
    last child of the row and given the formatted value as text. *)
Lemma xml_leaf_loop (fs : list RandomData.t) :
  forall (w : World) (H : list node) (kids : list nat) (L : list node),
    elements w = H ++ Node "row" None kids :: L ->
    for_each fs (xml_leaf (length H)) w
    = (Ok tt,
       set_elements w
         (H ++ Node "row" None
                 (kids ++ leaf_addrs (length H) (length L) (length fs))
            :: L ++ map leaf_node fs)).
Proof.
  induction fs as [|d fs IH]; intros w H kids L Hw.
  - cbn [for_each length map]. unfold ret, leaf_addrs. cbn [seq map].
    rewrite !app_nil_r, <- Hw. destruct w; reflexivity.
  - cbn [for_each]. unfold bind at 1.
    unfold xml_leaf at 1, ET.SubElement, ET.Element, ET.append, ET.set_text.
    unfold bind, ret. cbn [elements set_elements].
    rewrite Hw.
    rewrite <- (app_assoc H), <- app_comm_cons.
    rewrite (list_lookup_middle H _ _ (length H)) by reflexivity.
    cbn [tag text children].
    rewrite (insert_app_r_alt H) by lia. rewrite Nat.sub_diag. cbn [insert list_insert].
    assert (Hlen : length (H ++ Node "row" None kids :: L)
                   = (length H + S (length L))%nat)
      by (rewrite length_app; reflexivity).
    rewrite Hlen. cbn [elements set_elements].
    rewrite (lookup_app_r H) by lia.
    replace (length H + S (length L) - length H)%nat with (S (length L)) by lia.
    cbn [lookup list_lookup].
    rewrite (list_lookup_middle L [] _ (length L)) by reflexivity.
    rewrite (insert_app_r_alt H) by lia.
    replace (length H + S (length L) - length H)%nat with (S (length L)) by lia.
    cbn [insert list_insert].
    rewrite (insert_app_r_alt L) by lia. rewrite Nat.sub_diag.
    cbn [insert list_insert tag children].
    erewrite IH; [|cbn [elements set_elements]; reflexivity].
    f_equal. unfold set_elements; cbn [rng files denied elements].
    f_equal. f_equal. f_equal.
    + f_equal. rewrite <- app_assoc. f_equal.
      unfold leaf_addrs. rewrite length_app. cbn [length seq map app].
      f_equal; [lia|]. f_equal. f_equal. lia.
    + rewrite <- app_assoc. reflexivity.
Qed.

(** One round of the outer loop: a new row object becomes the last child
    of the root, followed by the leaves of a fresh record. *)
Lemma xml_row_run (root : nat) (w : World) (ks : list nat) :
  elements w !! root = Some (Node "root" None ks) ->
  xml_row root w
  = (Ok tt,
     set_elements (adv 7 w)
       (<[root := Node "root" None (ks ++ [length (elements w)])]> (elements w)
        ++ row_block (length (elements w)) (record_at w))).
Proof.
  intros Hroot. pose proof (lookup_lt_Some _ _ _ Hroot) as Hlt.
  unfold xml_row. unfold bind at 1.
  unfold ET.SubElement, ET.Element, ET.append, bind, ret.
  cbn [elements set_elements].
  rewrite lookup_app_l, Hroot by assumption. cbn [tag text children].
  rewrite insert_app_l by assumption.
  rewrite DataString_new_ok.
  set (H := <[root:=Node "root" None (ks ++ [length (elements w)])]> (elements w)).
  assert (HlenH : length (elements w) = length H)
    by (unfold H; rewrite length_insert; reflexivity).
  rewrite HlenH.
  erewrite (xml_leaf_loop _ _ H [] []); [|reflexivity].
  unfold row_block, leaf_addrs. cbn [length app].
  f_equal.
Qed.

Lemma length_row_block (a : nat) (r : DataString.t) :
  length (row_block a r) = S (length (DataString.string_ r)).
Proof. unfold row_block. cbn [length]. rewrite length_map. reflexivity. Qed.

Lemma row_at_bound (h : list node) (a : nat) (r : DataString.t) :
  row_at h a r -> (a + length (row_block a r) <= length h)%nat.
Proof.
  unfold row_at. intros E.
  assert (Hl : length (take (length (row_block a r)) (drop a h))
               = length (row_block a r)) by (rewrite E; reflexivity).
  rewrite length_take, length_drop in Hl.
  rewrite length_row_block in *. lia.
Qed.

(** Later rounds leave the objects of earlier rows alone. *)
Lemma row_at_frame (h blk : list node) (a root : nat) (x : node)
    (r : DataString.t) :
  row_at h a r -> (root < a)%nat -> row_at (<[root := x]> h ++ blk) a r.
Proof.
  intros E Hlt. pose proof (row_at_bound h a r E) as Hb.
  unfold row_at in *.
  rewrite drop_app_le by (rewrite length_insert; lia).
  rewrite take_app_le by (rewrite length_drop, length_insert; lia).
  rewrite drop_insert_lt by assumption. exact E.
Qed.

Lemma row_at_new (h : list node) (r : DataString.t) :
  row_at (h ++ row_block (length h) r) (length h) r.
Proof.
  unfold row_at. rewrite drop_app_length. apply take_ge. lia.
Qed.

(** The outer loop: the root gets one more row per round, in order, and
    every row keeps its place behind the root. *)
Lemma xml_rows_loop {A} (root : nat) (l : list A) :
  forall (w : World) (ks : list nat) (rs : list DataString.t),
    elements w !! root = Some (Node "root" None ks) ->
    Forall2 (fun a r => (root < a)%nat /\ row_at (elements w) a r) ks rs ->
    exists h' ks',
      for_each l (fun _ => xml_row root) w
      = (Ok tt, set_elements (adv (7 * length l) w) h')
      /\ h' !! root = Some (Node "root" None ks')
      /\ Forall2 (fun a r => (root < a)%nat /\ row_at h' a r) ks'
           (rs ++ records (length l) w).
Proof.
  induction l as [|x l IH]; intros w ks rs Hroot Hrows.
  - exists (elements w), ks. cbn [for_each length records].
    rewrite app_nil_r. repeat split; try assumption.
    unfold ret. destruct w; reflexivity.
  - pose proof (lookup_lt_Some _ _ _ Hroot) as Hlt.
    cbn [for_each]. unfold bind at 1. rewrite (xml_row_run root w ks Hroot).
    set (h1 := <[root:=_]> (elements w) ++ _).
    destruct (IH (set_elements (adv 7 w) h1) (ks ++ [length (elements w)])
                (rs ++ [record_at w])) as (h' & ks' & Hrun & Hr' & Hrows').
    + cbn [elements set_elements]. unfold h1.
      rewrite lookup_app_l by (rewrite length_insert; assumption).
      apply list_lookup_insert_eq. assumption.
    + cbn [elements set_elements]. apply Forall2_app.
      * eapply Forall2_impl; [exact Hrows|].
        intros a r [Hra Har]. split; [assumption|].
        unfold h1. apply row_at_frame; assumption.
      * constructor; [|constructor]. split; [assumption|].
        unfold h1.
        rewrite <- (length_insert (elements w) root
                      (Node "root" None (ks ++ [length (elements w)]))) at 2 3.
        apply row_at_new.
    + exists h', ks'. rewrite Hrun. split; [|split; [exact Hr'|]].
      * f_equal. rewrite adv_set_elements.
        replace (7 * length (x :: l))%nat with (7 + 7 * length l)%nat
          by (simpl; lia).
        rewrite (adv_add 7). reflexivity.
      * rewrite records_set_elements, <- app_assoc in Hrows'. exact Hrows'.
Qed.

(** *** Reading the tree back from the objects *)

Lemma all_some_mono {A} (f g : nat -> option A) (l : list nat) (r : list A) :
  (forall a t, f a = Some t -> g a = Some t) ->
  ET.all_some (map f l) = Some r -> ET.all_some (map g l) = Some r.
Proof.
  intros Hfg. revert r. induction l as [|a l IH]; intros r; [exact id|].
  cbn [map ET.all_some].
  destruct (f a) as [t|] eqn:Hfa; [|discriminate].
  rewrite (Hfg a t Hfa).
  destruct (ET.all_some (map f l)) as [r'|]; [|discriminate].
  rewrite (IH r' eq_refl). exact id.
Qed.

(** More depth than needed does not change the walk. *)
Lemma reify_mono (h : list node) (f f' : nat) :
  (f <= f')%nat ->
  forall a t, ET.reify f h a = Some t -> ET.reify f' h a = Some t.
Proof.
  revert f'. induction f as [|f IH]; intros f' Hle a t; [discriminate|].
  destruct f' as [|f']; [lia|].
  cbn [ET.reify].
  destruct (h !! a) as [n|]; [|discriminate].
  destruct (ET.all_some (map (ET.reify f h) (children n))) as [kids|] eqn:Hk;
    [|discriminate].
  rewrite (all_some_mono _ (ET.reify f' h) _ _ (IH f' ltac:(lia)) Hk).
  exact id.
Qed.

Lemma lookup_map {A B} (f : A -> B) (l : list A) (i : nat) :
  map f l !! i = option_map f (l !! i).
Proof.
  revert i. induction l as [|x l IH]; intros [|i]; try reflexivity. apply IH.
Qed.

Lemma row_at_lookup (h : list node) (a i : nat) (r : DataString.t) :
  row_at h a r -> (i < length (row_block a r))%nat ->
  h !! (a + i)%nat = row_block a r !! i.
Proof.
  intros E Hi. unfold row_at in E.
  rewrite <- E, lookup_take_lt, lookup_drop by assumption. reflexivity.
Qed.

Lemma reify_leaf (h : list node) (x : nat) (d : RandomData.t) :
  h !! x = Some (leaf_node d) -> ET.reify 1 h x = Some (leaf_tree d).
Proof. intros H. cbn [ET.reify]. rewrite H. reflexivity. Qed.

Lemma reify_leaves (h : list node) (a : nat) (fs : list RandomData.t) :
  forall k,
    (forall i d, fs !! i = Some d ->
                 h !! (a + 1 + (k + i))%nat = Some (leaf_node d)) ->
    ET.all_some (map (ET.reify 1 h) (leaf_addrs a k (length fs)))
    = Some (map leaf_tree fs).
Proof.
  induction fs as [|d fs IH]; intros k Hfs; [reflexivity|].
  unfold leaf_addrs in *. cbn [length seq map ET.all_some].
  pose proof (Hfs 0%nat d eq_refl) as H0. rewrite Nat.add_0_r in H0.
  rewrite (reify_leaf h _ d H0).
  rewrite (IH (S k)).
  - reflexivity.
  - intros i d' Hd'. specialize (Hfs (S i) d' Hd').
    replace (a + 1 + (S k + i))%nat with (a + 1 + (k + S i))%nat by lia.
    exact Hfs.
Qed.

(** The row objects at [a] read back as the row of the record. *)
Lemma reify_row (h : list node) (a : nat) (r : DataString.t) :
  row_at h a r -> ET.reify 2 h a = Some (row_tree r).
Proof.
  intros E. pose proof (length_row_block a r) as Hlen.
  pose proof (row_at_lookup h a 0 r E ltac:(lia)) as H0.
  rewrite Nat.add_0_r in H0.
  change (ET.reify 2 h a)
    with (match h !! a with
          | Some n =>
              match ET.all_some (map (ET.reify 1 h) (children n)) with
              | Some kids => Some (ET.Elem (tag n) (text n) kids)
              | None => None
              end
          | None => None
          end).
  rewrite H0. cbn [row_block lookup list_lookup children tag text].
  rewrite (reify_leaves h a (DataString.string_ r) 0).
  - reflexivity.
  - intros i d Hd. pose proof (lookup_lt_Some _ _ _ Hd) as Hi.
    replace (a + 1 + (0 + i))%nat with (a + S i)%nat by lia.
    rewrite (row_at_lookup h a (S i) r E) by lia.
    pose proof (lookup_map leaf_node (DataString.string_ r) i) as Hm.
    rewrite Hd in Hm. exact Hm.
Qed.

Lemma reify_rows (h : list node) (root : nat) (ks : list nat)
    (rs : list DataString.t) :
  Forall2 (fun a r => (root < a)%nat /\ row_at h a r) ks rs ->
  ET.all_some (map (ET.reify 2 h) ks) = Some (map row_tree rs).
Proof.
  induction 1 as [|a r ks rs [_ Har] _ IH]; [reflexivity|].
  cbn [map ET.all_some]. rewrite (reify_row h a r Har), IH. reflexivity.
Qed.

(** The tree under the root: one row per record, in order. *)
Lemma tree_of_root (h : list node) (root : nat) (ks : list nat)
    (rs : list DataString.t) :
  h !! root = Some (Node "root" None ks) ->
  Forall2 (fun a r => (root < a)%nat /\ row_at h a r) ks rs ->
  Forall (fun r => DataString.string_ r <> []) rs ->
  ET.tree_of h root = Some (ET.Elem "root" None (map row_tree rs)).
Proof.
  intros Hroot Hrows Hne. unfold ET.tree_of.
  assert (H3 : ET.reify 3 h root = Some (ET.Elem "root" None (map row_tree rs))).
  { change (ET.reify 3 h root)
      with (match h !! root with
            | Some n =>
                match ET.all_some (map (ET.reify 2 h) (children n)) with
                | Some kids => Some (ET.Elem (tag n) (text n) kids)
                | None => None
                end
            | None => None
            end).
    rewrite Hroot. cbn [children tag text].
    rewrite (reify_rows h root ks rs Hrows). reflexivity. }
  destruct Hrows as [|a r ks rs [Hra Har] Hrows].
  - pose proof (lookup_lt_Some _ _ _ Hroot) as Hlt.
    destruct (length h) as [|n]; [lia|].
    cbn [ET.reify]. rewrite Hroot. reflexivity.
  - pose proof (row_at_bound h a r Har) as Hb.
    rewrite length_row_block in Hb.
    inversion Hne as [|? ? Hr _]; subst.
    assert (length (DataString.string_ r) <> 0%nat)
      by (destruct (DataString.string_ r); [congruence|simpl; lia]).
    apply (reify_mono h 3); [lia|exact H3].
Qed.

End Nested.


(** ** The nested serializer: writing the tree *)

Section NestedText.

Lemma plain_ascii_no_cr (s : string) :
  all_chars plain s = true -> all_chars ascii_no_cr s = true.
Proof.
  apply all_chars_impl. intros c.
  destruct c as [[|] [|] [|] [|] [|] [|] [|] [|]]; vm_compute; congruence.
Qed.

Lemma escape_cdata_plain (s : string) :
  all_chars plain s = true -> ET.escape_cdata s = s.
Proof.
  induction s as [|c s IH]; [reflexivity|]. cbn [all_chars ET.escape_cdata].
  intros H. apply andb_true_iff in H as [Hc Hs]. rewrite (IH Hs).
  destruct c as [[|] [|] [|] [|] [|] [|] [|] [|]];
    try discriminate Hc; reflexivity.
Qed.

Lemma xmlcharrefreplace_id (s : string) :
  all_chars ascii_no_cr s = true -> ET.xmlcharrefreplace s = s.
Proof.
  induction s as [|c s IH]; [reflexivity|].
  cbn [all_chars ET.xmlcharrefreplace].
  intros H. apply andb_true_iff in H as [Hc Hs]. rewrite (IH Hs).
  unfold ascii_no_cr in Hc. apply andb_true_iff in Hc as [Hc _].
  rewrite Hc. reflexivity.
Qed.

Lemma universal_newlines_id (s : string) :
  all_chars ascii_no_cr s = true -> File.universal_newlines s = s.
Proof.
  induction s as [|c s IH]; [reflexivity|].
  cbn [all_chars File.universal_newlines].
  intros H. apply andb_true_iff in H as [Hc Hs]. rewrite (IH Hs).
  destruct (Ascii.eqb_spec c "013") as [->|_]; [discriminate Hc|reflexivity].
Qed.

Lemma serialize_xml_eq (tag : string) (text : option string)
    (kids : list ET.tree) :
  ET.serialize_xml (ET.Elem tag text kids)
  = match match text with Some (String _ _) => true | _ => false end, kids with
    | false, [] => "<" +:+ tag +:+ " />"
    | _, _ =>
        "<" +:+ tag +:+ ">"
        +:+ match text with Some s => ET.escape_cdata s | None => "" end
        +:+ cat (map ET.serialize_xml kids)
        +:+ "</" +:+ tag +:+ ">"
    end.
Proof. reflexivity. Qed.

Lemma cat_chars (p : ascii -> bool) (l : list string) :
  Forall (fun s => all_chars p s = true) l -> all_chars p (cat l) = true.
Proof.
  induction 1 as [|s l Hs _ IH]; [reflexivity|].
  cbn [cat]. rewrite all_chars_app, Hs, IH. reflexivity.
Qed.

(** An element whose tag, text and children are free of non-ASCII
    characters and carriage returns serializes to such a text. *)
Lemma serialize_chars (tag : string) (text : option string)
    (kids : list ET.tree) :
  all_chars ascii_no_cr tag = true ->
  match text with Some s => all_chars plain s = true | None => True end ->
  Forall (fun k => all_chars ascii_no_cr (ET.serialize_xml k) = true) kids ->
  all_chars ascii_no_cr (ET.serialize_xml (ET.Elem tag text kids)) = true.
Proof.
  intros Htag Htext Hkids. rewrite serialize_xml_eq.
  assert (Hbody :
            all_chars ascii_no_cr
              ("<" +:+ tag +:+ ">"
               +:+ match text with Some s => ET.escape_cdata s | None => "" end
               +:+ cat (map ET.serialize_xml kids)
               +:+ "</" +:+ tag +:+ ">") = true).
  { rewrite !all_chars_app, Htag.
    rewrite cat_chars by (apply Forall_map; exact Hkids).
    destruct text as [s|]; [|reflexivity].
    rewrite (escape_cdata_plain s Htext), (plain_ascii_no_cr s Htext).
    reflexivity. }
  assert (Hshort : all_chars ascii_no_cr ("<" +:+ tag +:+ " />") = true)
    by (rewrite !all_chars_app, Htag; reflexivity).
  destruct text as [[|c s]|]; destruct kids; assumption.
Qed.

Lemma record_at_good (w : World) : Forall good_field (DataString.string_ (record_at w)).
Proof.
  unfold record_at, record_of. cbn [DataString.string_].
  repeat (apply Forall_cons; split;
          [split;
           [reflexivity
           |cbn [RandomData.value str];
            lazymatch goal with
            | |- all_chars plain (str_int _) = true => exact (str_int_plain _)
            | |- all_chars plain (str_datetime _) = true =>
                exact (str_datetime_plain _)
            end]|]).
  apply Forall_nil. exact I.
Qed.

Lemma row_chars (r : DataString.t) :
  Forall good_field (DataString.string_ r) ->
  all_chars ascii_no_cr (ET.serialize_xml (row_tree r)) = true.
Proof.
  intros Hr. unfold row_tree.
  apply serialize_chars; [reflexivity|exact I|].
  apply Forall_map. eapply Forall_impl; [exact Hr|].
  intros d [Hn Hv]. unfold leaf_tree.
  apply serialize_chars; [exact Hn|exact Hv|constructor].
Qed.

Lemma records_good (n : nat) (w : World) :
  Forall (fun r => Forall good_field (DataString.string_ r)) (records n w).
Proof.
  revert w. induction n as [|n IH]; intros w; cbn [records]; constructor.
  - apply record_at_good.
  - apply IH.
Qed.

Lemma records_nonempty (n : nat) (w : World) :
  Forall (fun r => DataString.string_ r <> []) (records n w).
Proof.
  revert w. induction n as [|n IH]; intros w; cbn [records]; constructor.
  - unfold record_at, record_of. cbn [DataString.string_]. discriminate.
  - apply IH.
Qed.

(** The document of the generated records is plain ASCII without
    carriage return. *)
Lemma document_chars (n : nat) (w : World) :
  all_chars ascii_no_cr
    (ET.serialize_xml (ET.Elem "root" None (map row_tree (records n w)))) = true.
Proof.
  apply serialize_chars; [reflexivity|exact I|].
  apply Forall_map. eapply Forall_impl; [apply records_good|].
  intros r Hr. apply row_chars, Hr.
Qed.

End NestedText.


(** ** The nested serializer: the whole run *)

Section NestedRun.

(** [generate_xml] when the destination can be opened: the tree under the
    root, the rewritten file, and the draws consumed. *)
Lemma generate_xml_run (file : string) (N : Z) (w : World) :
  file ∉ denied w ->
  exists h',
    generate_xml file N w
    = (Ok tt,
       set_files (set_elements (adv (7 * Z.to_nat (N - 1)) w) h')
         (<[file := xml_declaration
                    +:+ String newline
                          (ET.serialize_xml
                             (ET.Elem "root" None
                                (map row_tree (records (Z.to_nat (N - 1)) w))))]>
            (files w)))
    /\ ET.tree_of h' (length (elements w))
       = Some (ET.Elem "root" None (map row_tree (records (Z.to_nat (N - 1)) w))).
Proof.
  intros Hfile. unfold generate_xml, measure_time.
  unfold bind at 1. unfold ET.Element at 1.
  set (root := length (elements w)).
  set (w1 := set_elements w (elements w ++ [Node "root" None []])).
  change (fun _ : Z =>
            let* row := ET.SubElement root "row" in
            let* data := DataString.new in
            for_each (DataString.string_ data)
              (fun node =>
                 let* leaf := ET.SubElement row (RandomData.name node) in
                 ET.set_text leaf (str (RandomData.value node))))
    with (fun _ : Z => xml_row root).
  destruct (xml_rows_loop root (range 1 N) w1 [] [])
    as (h' & ks' & Hrun & Hroot & Hrows).
  { unfold w1, root. cbn [elements set_elements].
    apply list_lookup_middle. reflexivity. }
  { constructor. }
  rewrite length_range in Hrun, Hrows. cbn [app] in Hrows.
  subst w1.
  rewrite adv_set_elements in Hrun. rewrite records_set_elements in Hrows.
  assert (Htree : ET.tree_of h' root
                  = Some (ET.Elem "root" None
                            (map row_tree (records (Z.to_nat (N - 1)) w)))).
  { apply (tree_of_root h' root ks'); try assumption. apply records_nonempty. }
  exists h'. split; [|exact Htree].
  unfold bind at 1. rewrite Hrun.
  unfold bind at 1. unfold ET.write, bind at 1.
  unfold File.open_w at 1.
  change (denied (set_elements (set_elements (adv (7 * Z.to_nat (N - 1)) w)
                                  (elements w ++ [Node "root" None []])) h'))
    with (denied (adv (7 * Z.to_nat (N - 1)) w)).
  assert (Hden : forall n, denied (adv n w) = denied w).
  { intros n. generalize w. induction n as [|n IH]; intros w0; [reflexivity|].
    exact (IH (advance w0)). }
  assert (Hfil : forall n, files (adv n w) = files w).
  { intros n. generalize w. induction n as [|n IH]; intros w0; [reflexivity|].
    exact (IH (advance w0)). }
  rewrite Hden.
  destruct (decide (file ∈ denied w)) as [Hin|_]; [contradiction|].
  unfold bind at 1. cbn [elements set_files set_elements]. rewrite Htree.
  unfold File.write at 1. cbn [files set_files set_elements].
  rewrite lookup_insert_eq, app_empty_l.
  unfold bind at 1. unfold File.read.
  cbn [files denied set_files set_elements]. rewrite Hden.
  destruct (decide (file ∈ denied w)) as [Hin|_]; [contradiction|].
  rewrite lookup_insert_eq.
  unfold bind at 1. unfold File.open_w.
  cbn [files denied set_files set_elements]. rewrite Hden.
  destruct (decide (file ∈ denied w)) as [Hin|_]; [contradiction|].
  unfold File.write. cbn [files denied set_files set_elements].
  rewrite lookup_insert_eq, app_empty_l.
  pose proof (document_chars (Z.to_nat (N - 1)) w) as Hdoc.
  rewrite (xmlcharrefreplace_id _ Hdoc), (universal_newlines_id _ Hdoc).
  rewrite !insert_insert_eq, Hfil.
  unfold set_files, set_elements. cbn [rng files denied elements]. reflexivity.
Qed.

End NestedRun.


(** * Further properties of the generator *)

Section RecordProperties.

(** X1. Whatever the state of the random source, [DataString()] returns
    normally after exactly seven draws, with the seven fields in
    declaration order under their names and limits; every integer value
    lies in the half-open range of its field and the timestamp lies in the
    window of the [ts] field. *)
Theorem DataString_new_fields (w : World) :
  exists v1 v2 t v4 v5 v6 v7,
    DataString.new w
    = (Ok (DataString.Build
             [RandomData.Build "start_page" (PInt 1) (PInt 1000000000) (PInt v1);
              RandomData.Build "user" (PInt 1) (PInt 100000000) (PInt v2);
              RandomData.Build "ts" (PStr "2005-01-01 23:56:42")
                (PStr "2016-01-01 10:50:00") (PDatetime t);
              RandomData.Build "depth" (PInt 1) (PInt 50) (PInt v4);
              RandomData.Build "duration" (PInt 100) (PInt 10000) (PInt v5);
              RandomData.Build "transmit" (PInt 100000) (PInt 1000000000)
                (PInt v6);
              RandomData.Build "type" (PInt 1) (PInt 5) (PInt v7)]),
       adv 7 w)
    /\ 1 <= v1 < 1000000000 /\ 1 <= v2 < 100000000
    /\ datetime_leb (Datetime 2005 1 1 23 56 42 0) t = true
    /\ datetime_leb t (Datetime 2016 1 1 10 50 0 0) = true
    /\ 1 <= v4 < 50 /\ 100 <= v5 < 10000 /\ 100000 <= v6 < 1000000000
    /\ 1 <= v7 < 5.
Proof.
  rewrite DataString_new_ok. unfold record_at, record_of.
  do 7 eexists. split; [reflexivity|].
  destruct (rand_ts_between "2005-01-01 23:56:42" "2016-01-01 10:50:00"
              ts_min ts_max (adv 2 w) eq_refl eq_refl)
    as (r & _ & Hr & _ & Hbt).
  change (datetime_leb ts_min ts_max) with true in Hbt.
  unfold between in Hbt. apply andb_true_iff in Hbt as [Hlo Hhi].
  rewrite Hr in Hlo, Hhi.
  assert (Hmod : forall lo x width : Z,
             0 < width -> lo <= lo + x mod width < lo + width).
  { intros lo x width Hw. pose proof (Z.mod_pos_bound x width Hw). lia. }
  split; [exact (Hmod 1 _ (1000000000 - 1) eq_refl)|].
  split; [exact (Hmod 1 _ (100000000 - 1) eq_refl)|].
  split; [exact Hlo|]. split; [exact Hhi|].
  split; [exact (Hmod 1 _ (50 - 1) eq_refl)|].
  split; [exact (Hmod 100 _ (10000 - 100) eq_refl)|].
  split; [exact (Hmod 100000 _ (1000000000 - 100000) eq_refl)|].
  exact (Hmod 1 _ (5 - 1) eq_refl).
Qed.

(** X2. A type tag that is neither ['int'] nor ['ts'] falls through both
    branches of [rand_value]: the field is built with the value [None],
    nothing is drawn and nothing is raised, and its text is [None]. *)
Theorem rand_value_unknown_type (name value_type : string) (min max : pyval)
    (w : World) :
  value_type <> "int" -> value_type <> "ts" ->
  RandomData.new name value_type min max w
  = (Ok (RandomData.Build name min max PNone), w)
  /\ str PNone = "None".
Proof.
  intros Hi Ht. split; [|reflexivity].
  unfold RandomData.new, RandomData.rand_value, bind.
  apply String.eqb_neq in Hi, Ht. rewrite Hi, Ht. reflexivity.
Qed.

Lemma rand_value_unknown_type_witness :
  "float" <> "int" /\ "float" <> "ts"
  /\ RandomData.new "ratio" "float" (PInt 0) (PInt 1) sample_world
     = (Ok (RandomData.Build "ratio" (PInt 0) (PInt 1) PNone), sample_world)
  /\ str PNone = "None".
Proof.
  assert (H1 : "float" <> "int") by discriminate.
  assert (H2 : "float" <> "ts") by discriminate.
  split; [exact H1|]. split; [exact H2|].
  exact (rand_value_unknown_type "ratio" "float" (PInt 0) (PInt 1)
           sample_world H1 H2).
Defined.

(** X3. Every integer of [[min, max)] is the value of an Integer field for
    some draw of the random source: the range is covered, and by X11
    nothing outside it is produced. *)
Theorem rand_int_onto_range (name : string) (min max v : Z) :
  min <= v < max ->
  exists w,
    RandomData.new name "int" (PInt min) (PInt max) w
    = (Ok (RandomData.Build name (PInt min) (PInt max) (PInt v)), advance w).
Proof.
  intros H. exists (world_of (fun _ => Z.to_N (v - min))).
  rewrite new_int by lia. f_equal. f_equal. f_equal. f_equal.
  unfold draw, world_of; cbn [rng tape cursor]. rewrite Z2N.id by lia.
  rewrite Z.mod_small by lia. lia.
Qed.

Lemma rand_int_onto_range_witness :
  1 <= 4 < 5
  /\ exists w,
      RandomData.new "type" "int" (PInt 1) (PInt 5) w
      = (Ok (RandomData.Build "type" (PInt 1) (PInt 5) (PInt 4)), advance w).
Proof.
  assert (H : 1 <= 4 < 5) by lia.
  split; [exact H|]. exact (rand_int_onto_range "type" 1 5 4 H).
Defined.

End RecordProperties.


Section FlatProperties.

Lemma uint_valchar (d : Decimal.uint) :
  all_chars valchar (NilEmpty.string_of_uint d) = true.
Proof. induction d; simpl; try rewrite IHd; reflexivity. Qed.

Lemma str_int_valchar (n : Z) : all_chars valchar (str_int n) = true.
Proof.
  unfold str_int, NilZero.string_of_int, NilZero.string_of_uint.
  destruct (Z.to_int n) as [d|d]; destruct d; simpl;
    try reflexivity; apply uint_valchar.
Qed.

Lemma zeros_valchar (n : nat) : all_chars valchar (zeros n) = true.
Proof. induction n; simpl; [reflexivity|exact IHn]. Qed.

Lemma fmt_0d_valchar (w : nat) (n : Z) : all_chars valchar (fmt_0d w n) = true.
Proof.
  unfold fmt_0d. destruct (n <? 0); simpl;
    rewrite all_chars_app, zeros_valchar, str_int_valchar; reflexivity.
Qed.

Lemma str_datetime_valchar (t : datetime) :
  all_chars valchar (str_datetime t) = true.
Proof.
  unfold str_datetime.
  destruct (microsecond t =? 0);
    repeat (rewrite all_chars_app || rewrite fmt_0d_valchar); reflexivity.
Qed.

Lemma valchar_no_comma (s : string) :
  all_chars valchar s = true -> all_chars no_comma s = true.
Proof.
  apply all_chars_impl. intros c.
  destruct c as [[|] [|] [|] [|] [|] [|] [|] [|]]; vm_compute; congruence.
Qed.

Lemma split_on_one (sep : ascii) (s : string) :
  all_chars (fun c => negb (Ascii.eqb c sep)) s = true ->
  split_on sep s = [s].
Proof.
  induction s as [|c s IH]; simpl; [reflexivity|].
  intros H. apply andb_true_iff in H as [Hc Hs].
  destruct (Ascii.eqb c sep); [discriminate|].
  rewrite (IH Hs). reflexivity.
Qed.

Lemma split_on_app (sep : ascii) (s t : string) :
  all_chars (fun c => negb (Ascii.eqb c sep)) s = true ->
  split_on sep (s +:+ String sep t) = s :: split_on sep t.
Proof.
  induction s as [|c s IH].
  - intros _. rewrite app_empty_l. simpl. rewrite Ascii.eqb_refl. reflexivity.
  - rewrite app_cons. simpl.
    intros H. apply andb_true_iff in H as [Hc Hs].
    destruct (Ascii.eqb c sep); [discriminate|].
    rewrite (IH Hs). reflexivity.
Qed.

(** Splitting at commas undoes joining with commas, for pieces without
    comma. *)
Lemma split_on_join (l : list string) :
  l <> [] ->
  Forall (fun s => all_chars no_comma s = true) l ->
  split_on "," (join "," l) = l.
Proof.
  intros Hne Hl. induction Hl as [|s l Hs Hl IH]; [congruence|].
  destruct l as [|s' l'].
  - apply split_on_one, Hs.
  - change (join "," (s :: s' :: l')) with (s +:+ "," +:+ join "," (s' :: l')).
    change ("," +:+ join "," (s' :: l')) with (String "," (join "," (s' :: l'))).
    rewrite (split_on_app "," s) by exact Hs.
    rewrite IH by discriminate. reflexivity.
Qed.

Lemma value_texts_no_comma (w : World) :
  Forall (fun s => all_chars no_comma s = true) (value_texts (record_at w)).
Proof.
  unfold value_texts, record_at, record_of.
  cbn [DataString.string_ map RandomData.value str].
  repeat match goal with
    | |- Forall _ (str_int _ :: _) =>
        apply Forall_cons; split;
        [exact (valchar_no_comma _ (str_int_valchar _))|]
    | |- Forall _ (str_datetime _ :: _) =>
        apply Forall_cons; split;
        [exact (valchar_no_comma _ (str_datetime_valchar _))|]
    end.
  apply Forall_nil. exact I.
Qed.

Lemma split_values (w : World) :
  split_on "," (DataString.values (record_at w)) = value_texts (record_at w).
Proof.
  unfold DataString.values. fold (value_texts (record_at w)).
  apply split_on_join; [|apply value_texts_no_comma].
  unfold value_texts, record_at, record_of. cbn [DataString.string_ map].
  discriminate.
Qed.

Lemma split_records (n : nat) (w : World) :
  map (split_on ",") (map DataString.values (records n w))
  = map value_texts (records n w).
Proof.
  revert w. induction n as [|n IH]; intros w; [reflexivity|].
  cbn [records map]. rewrite split_values, IH. reflexivity.
Qed.

(** X4. Reading the flat file back: cut into lines and each line cut at
    its commas, the file written by [generate_csv] is the row of the seven
    field names followed by one row per record, holding the seven
    formatted values of that record in field order.  The records are those
    that successive calls of [DataString()] return after the record built
    for the header. *)
Theorem generate_csv_parses_back (file : string) (N : Z) (w : World) :
  file ∉ denied w ->
  exists header rows w1 w2 w' content,
    DataString.new w = (Ok header, w1)
    /\ map_m (fun _ => DataString.new) (range 1 N) w1 = (Ok rows, w2)
    /\ generate_csv file N w = (Ok tt, w')
    /\ files w' !! file = Some content
    /\ map (split_on ",") (lines content)
       = ["start_page"; "user"; "ts"; "depth"; "duration"; "transmit"; "type"]
         :: map (fun r => map (fun data => str (RandomData.value data))
                            (DataString.string_ r)) rows.
Proof.
  intros Hfile.
  eexists (record_at w), (records (Z.to_nat (N - 1)) (adv 7 w)), _, _, _, _.
  split; [apply DataString_new_ok|].
  split; [rewrite map_m_records, length_range; reflexivity|].
  split; [apply generate_csv_run, Hfile|].
  split; [apply lookup_insert_eq|].
  rewrite csv_lines_records. cbn [map]. rewrite split_records, headers_record.
  reflexivity.
Qed.

Lemma generate_csv_parses_back_witness :
  ("data.csv" ∉ denied sample_world)
  /\ exists header rows w1 w2 w' content,
      DataString.new sample_world = (Ok header, w1)
      /\ map_m (fun _ => DataString.new) (range 1 3) w1 = (Ok rows, w2)
      /\ generate_csv "data.csv" 3 sample_world = (Ok tt, w')
      /\ files w' !! "data.csv" = Some content
      /\ map (split_on ",") (lines content)
         = ["start_page"; "user"; "ts"; "depth"; "duration"; "transmit"; "type"]
           :: map (fun r => map (fun data => str (RandomData.value data))
                              (DataString.string_ r)) rows.
Proof.
  assert (H : "data.csv" ∉ denied sample_world) by (vm_compute; set_solver).
  split; [exact H|].
  exact (generate_csv_parses_back "data.csv" 3 sample_world H).
Defined.

End FlatProperties.


Section Effects.

Lemma adv_files (n : nat) (w : World) : files (adv n w) = files w.
Proof.
  revert w. induction n as [|n IH]; intros w; [reflexivity|].
  exact (IH (advance w)).
Qed.

Lemma adv_denied (n : nat) (w : World) : denied (adv n w) = denied w.
Proof.
  revert w. induction n as [|n IH]; intros w; [reflexivity|].
  exact (IH (advance w)).
Qed.

Lemma adv_elements (n : nat) (w : World) : elements (adv n w) = elements w.
Proof.
  revert w. induction n as [|n IH]; intros w; [reflexivity|].
  exact (IH (advance w)).
Qed.

Lemma adv_cursor (n : nat) (w : World) :
  cursor (rng (adv n w)) = (cursor (rng w) + n)%nat
  /\ tape (rng (adv n w)) = tape (rng w).
Proof.
  revert w. induction n as [|n IH]; intros w.
  - split; [simpl; lia|reflexivity].
  - destruct (IH (advance w)) as [Hc Ht]. cbn [adv]. rewrite Hc, Ht.
    split; [simpl; lia|reflexivity].
Qed.

(** X5. What [generate_csv] does to its surroundings when the destination
    can be opened: it replaces the previous content of the destination,
    leaves every other file as it was, and takes exactly [7 * max(N, 1)]
    draws from the random source, seven of them for the record that only
    serves to print the header. *)
Theorem generate_csv_effect (file : string) (N : Z) (w : World) :
  file ∉ denied w ->
  exists w',
    generate_csv file N w = (Ok tt, w')
    /\ (forall other, other <> file -> files w' !! other = files w !! other)
    /\ (forall previous,
           fst (generate_csv file N (set_files w (<[file := previous]> (files w))))
           = Ok tt
           /\ files (snd (generate_csv file N
                            (set_files w (<[file := previous]> (files w)))))
              !! file
              = files w' !! file)
    /\ tape (rng w') = tape (rng w)
    /\ Z.of_nat (cursor (rng w')) = Z.of_nat (cursor (rng w)) + 7 * Z.max N 1.
Proof.
  intros Hfile. eexists. split; [apply generate_csv_run, Hfile|].
  split; [|split; [|split]].
  - intros other Hne. cbn [files set_files].
    apply lookup_insert_ne. congruence.
  - intros previous.
    rewrite (generate_csv_run file N (set_files w _)) by exact Hfile.
    split; [reflexivity|].
    cbn [fst snd files set_files]. rewrite !lookup_insert_eq.
    rewrite (adv_set_files 7), records_set_files. reflexivity.
  - cbn [rng set_files].
    destruct (adv_cursor (7 * Z.to_nat (N - 1)) (adv 7 w)) as [_ ->].
    destruct (adv_cursor 7 w) as [_ ->]. reflexivity.
  - cbn [rng set_files].
    destruct (adv_cursor (7 * Z.to_nat (N - 1)) (adv 7 w)) as [-> _].
    destruct (adv_cursor 7 w) as [-> _]. lia.
Qed.

Lemma generate_csv_effect_witness :
  ("data.csv" ∉ denied sample_world)
  /\ exists w',
      generate_csv "data.csv" 0 sample_world = (Ok tt, w')
      /\ (forall other, other <> "data.csv" ->
                        files w' !! other = files sample_world !! other)
      /\ (forall previous,
             fst (generate_csv "data.csv" 0
                    (set_files sample_world
                       (<["data.csv" := previous]> (files sample_world))))
             = Ok tt
             /\ files (snd (generate_csv "data.csv" 0
                              (set_files sample_world
                                 (<["data.csv" := previous]>
                                    (files sample_world)))))
                !! "data.csv"
                = files w' !! "data.csv")
      /\ tape (rng w') = tape (rng sample_world)
      /\ Z.of_nat (cursor (rng w'))
         = Z.of_nat (cursor (rng sample_world)) + 7 * Z.max 0 1.
Proof.
  assert (H : "data.csv" ∉ denied sample_world) by (vm_compute; set_solver).
  split; [exact H|]. exact (generate_csv_effect "data.csv" 0 sample_world H).
Defined.

(** X6. When the destination cannot be opened, [generate_csv] raises the
    I/O error at once: no record is built, no draw is taken and no file is
    touched. *)
Theorem generate_csv_denied (file : string) (N : Z) (w : World) :
  file ∈ denied w -> generate_csv file N w = (Raise OSError, w).
Proof.
  intros Hin. unfold generate_csv, measure_time.
  unfold bind at 1. unfold File.open_w.
  destruct (decide (file ∈ denied w)) as [_|Hn]; [reflexivity|contradiction].
Qed.

End Effects.


Section NestedProperties.

Lemma generate_csv_denied_witness :
  ("locked.out" ∈ denied locked_world)
  /\ generate_csv "locked.out" 5 locked_world = (Raise OSError, locked_world).
Proof.
  assert (H : "locked.out" ∈ denied locked_world) by (vm_compute; set_solver).
  split; [exact H|]. exact (generate_csv_denied "locked.out" 5 locked_world H).
Defined.

Lemma records_names (n : nat) (w : World) :
  Forall (fun r => map RandomData.name (DataString.string_ r)
                   = ["start_page"; "user"; "ts"; "depth"; "duration";
                      "transmit"; "type"]) (records n w).
Proof.
  revert w. induction n as [|n IH]; intros w; cbn [records]; constructor.
  - unfold record_at, record_of. cbn [DataString.string_ map RandomData.name].
    reflexivity.
  - apply IH.
Qed.

(** X7. The tree that [generate_xml] builds: under one [root] element
    without text, one [row] element per record, in the order the records
    are drawn; under each row, one leaf per field of the record, in field
    order, tagged with the field name and holding the formatted value as
    its text; seven leaves named [start_page], [user], [ts], [depth],
    [duration], [transmit], [type].  There are [N - 1] rows (none when
    [N <= 1]), and the records are those that successive calls of
    [DataString()] return. *)
Theorem generate_xml_tree (file : string) (N : Z) (w : World) :
  file ∉ denied w ->
  exists rows w1 w',
    map_m (fun _ => DataString.new) (range 1 N) w = (Ok rows, w1)
    /\ length rows = Z.to_nat (N - 1)
    /\ generate_xml file N w = (Ok tt, w')
    /\ ET.tree_of (elements w') (length (elements w))
       = Some (ET.Elem "root" None
                 (map (fun r =>
                         ET.Elem "row" None
                           (map (fun data =>
                                   ET.Elem (RandomData.name data)
                                     (Some (str (RandomData.value data))) [])
                              (DataString.string_ r)))
                    rows))
    /\ Forall (fun r => map RandomData.name (DataString.string_ r)
                        = ["start_page"; "user"; "ts"; "depth"; "duration";
                           "transmit"; "type"]) rows.
Proof.
  intros Hfile.
  destruct (generate_xml_run file N w Hfile) as (h' & Hrun & Htree).
  eexists (records (Z.to_nat (N - 1)) w), _, _.
  split; [rewrite map_m_records, length_range; reflexivity|].
  split; [apply length_records|].
  split; [exact Hrun|].
  split; [exact Htree|].
  apply records_names.
Qed.

Lemma generate_xml_tree_witness :
  ("data.xml" ∉ denied sample_world)
  /\ exists rows w1 w',
      map_m (fun _ => DataString.new) (range 1 5) sample_world = (Ok rows, w1)
      /\ length rows = Z.to_nat (5 - 1)
      /\ generate_xml "data.xml" 5 sample_world = (Ok tt, w')
      /\ ET.tree_of (elements w') (length (elements sample_world))
         = Some (ET.Elem "root" None
                   (map (fun r =>
                           ET.Elem "row" None
                             (map (fun data =>
                                     ET.Elem (RandomData.name data)
                                       (Some (str (RandomData.value data))) [])
                                (DataString.string_ r)))
                      rows))
      /\ Forall (fun r => map RandomData.name (DataString.string_ r)
                          = ["start_page"; "user"; "ts"; "depth"; "duration";
                             "transmit"; "type"]) rows.
Proof.
  assert (H : "data.xml" ∉ denied sample_world) by (vm_compute; set_solver).
  split; [exact H|]. exact (generate_xml_tree "data.xml" 5 sample_world H).
Defined.

Lemma app_nonempty_l (s t : string) : s <> "" -> s +:+ t <> "".
Proof. destruct s; [congruence|]. rewrite app_cons. discriminate. Qed.

Lemma app_nonempty_r (s t : string) : t <> "" -> s +:+ t <> "".
Proof.
  intros Ht. destruct s; [rewrite app_empty_l; exact Ht|].
  rewrite app_cons. discriminate.
Qed.

Lemma str_int_nonempty (n : Z) : str_int n <> "".
Proof.
  unfold str_int, NilZero.string_of_int, NilZero.string_of_uint.
  destruct (Z.to_int n) as [d|d]; destruct d; simpl; discriminate.
Qed.

Lemma str_datetime_nonempty (t : datetime) : str_datetime t <> "".
Proof.
  unfold str_datetime. apply app_nonempty_l. unfold fmt_0d.
  destruct (year t <? 0); [discriminate|].
  apply app_nonempty_r, str_int_nonempty.
Qed.

(** A leaf with a non-empty plain text is written in full, unescaped. *)
Lemma leaf_serialize (d : RandomData.t) :
  all_chars plain (str (RandomData.value d)) = true ->
  str (RandomData.value d) <> "" ->
  ET.serialize_xml (leaf_tree d) = leaf_text d.
Proof.
  intros Hp Hne. unfold leaf_tree, leaf_text. rewrite serialize_xml_eq.
  rewrite (escape_cdata_plain _ Hp).
  destruct (str (RandomData.value d)) as [|c v]; [congruence|].
  reflexivity.
Qed.

Lemma record_at_leaves (w : World) :
  map ET.serialize_xml (map leaf_tree (DataString.string_ (record_at w)))
  = map leaf_text (DataString.string_ (record_at w)).
Proof.
  unfold record_at, record_of. cbn [DataString.string_ map].
  repeat (apply (f_equal2 cons);
          [apply leaf_serialize; cbn [RandomData.value str];
           lazymatch goal with
           | |- all_chars plain (str_int _) = true => exact (str_int_plain _)
           | |- all_chars plain (str_datetime _) = true =>
               exact (str_datetime_plain _)
           | |- str_int _ <> "" => exact (str_int_nonempty _)
           | |- str_datetime _ <> "" => exact (str_datetime_nonempty _)
           end
          |]).
  reflexivity.
Qed.

Lemma row_serialize (w : World) :
  ET.serialize_xml (row_tree (record_at w)) = row_text (record_at w).
Proof.
  unfold row_tree, row_text. rewrite serialize_xml_eq, record_at_leaves.
  unfold record_at, record_of. cbn [DataString.string_ map]. reflexivity.
Qed.

Lemma rows_serialize (n : nat) (w : World) :
  map ET.serialize_xml (map row_tree (records n w)) = map row_text (records n w).
Proof.
  revert w. induction n as [|n IH]; intros w; [reflexivity|].
  cbn [records map]. rewrite row_serialize, IH. reflexivity.
Qed.

Lemma document_serialize (n : nat) (w : World) :
  ET.serialize_xml (ET.Elem "root" None (map row_tree (records n w)))
  = match records n w with
    | [] => "<root />"
    | _ :: _ => "<root>" +:+ cat (map row_text (records n w)) +:+ "</root>"
    end.
Proof.
  rewrite serialize_xml_eq, rows_serialize.
  destruct (records n w); reflexivity.
Qed.

(** X8. The file that [generate_xml] leaves behind: the XML declaration,
    a newline, and the document on a single line.  The document is
    [<root />] when there is no record; otherwise it is [<root>], then for
    each record [<row>], the seven leaves [<name>value</name>] in field
    order with the formatted value written as it is (no character of a
    value needs escaping), [</row>], and finally [</root>].  No other file
    is changed. *)
Theorem generate_xml_document (file : string) (N : Z) (w : World) :
  file ∉ denied w ->
  exists rows w1 w',
    map_m (fun _ => DataString.new) (range 1 N) w = (Ok rows, w1)
    /\ generate_xml file N w = (Ok tt, w')
    /\ files w' !! file
       = Some (xml_declaration
               +:+ String newline
                     match rows with
                     | [] => "<root />"
                     | _ :: _ =>
                         "<root>"
                         +:+ cat (map (fun r =>
                                         "<row>"
                                         +:+ cat (map (fun data =>
                                                         "<" +:+ RandomData.name data
                                                         +:+ ">"
                                                         +:+ str (RandomData.value data)
                                                         +:+ "</"
                                                         +:+ RandomData.name data
                                                         +:+ ">")
                                                    (DataString.string_ r))
                                         +:+ "</row>") rows)
                         +:+ "</root>"
                     end)
    /\ (forall other, other <> file -> files w' !! other = files w !! other).
Proof.
  intros Hfile.
  destruct (generate_xml_run file N w Hfile) as (h' & Hrun & _).
  eexists (records (Z.to_nat (N - 1)) w), _, _.
  split; [rewrite map_m_records, length_range; reflexivity|].
  split; [exact Hrun|]. split.
  - cbn [files set_files]. rewrite lookup_insert_eq, document_serialize.
    reflexivity.
  - intros other Hne. cbn [files set_files set_elements].
    apply lookup_insert_ne. congruence.
Qed.

Lemma generate_xml_document_witness :
  ("data.xml" ∉ denied sample_world)
  /\ exists rows w1 w',
      map_m (fun _ => DataString.new) (range 1 3) sample_world = (Ok rows, w1)
      /\ generate_xml "data.xml" 3 sample_world = (Ok tt, w')
      /\ files w' !! "data.xml"
         = Some (xml_declaration
                 +:+ String newline
                       match rows with
                       | [] => "<root />"
                       | _ :: _ =>
                           "<root>"
                           +:+ cat (map (fun r =>
                                           "<row>"
                                           +:+ cat (map (fun data =>
                                                           "<" +:+ RandomData.name data
                                                           +:+ ">"
                                                           +:+ str (RandomData.value data)
                                                           +:+ "</"
                                                           +:+ RandomData.name data
                                                           +:+ ">")
                                                      (DataString.string_ r))
                                           +:+ "</row>") rows)
                           +:+ "</root>"
                       end)
      /\ (forall other, other <> "data.xml" ->
                        files w' !! other = files sample_world !! other).
Proof.
  assert (H : "data.xml" ∉ denied sample_world) by (vm_compute; set_solver).
  split; [exact H|]. exact (generate_xml_document "data.xml" 3 sample_world H).
Defined.

End NestedProperties.


Section NestedEdges.

(** X9. When the destination cannot be opened, [generate_xml] fails only
    after it has done all the generation: the tree of the [N - 1] records
    is built and their draws are taken from the random source, then the
    write raises the I/O error.  No file is touched. *)
Theorem generate_xml_denied (file : string) (N : Z) (w : World) :
  file ∈ denied w ->
  exists rows w1 w',
    map_m (fun _ => DataString.new) (range 1 N) w = (Ok rows, w1)
    /\ generate_xml file N w = (Raise OSError, w')
    /\ files w' = files w
    /\ rng w' = rng w1
    /\ Z.of_nat (cursor (rng w'))
       = Z.of_nat (cursor (rng w)) + 7 * Z.max (N - 1) 0
    /\ ET.tree_of (elements w') (length (elements w))
       = Some (ET.Elem "root" None
                 (map (fun r =>
                         ET.Elem "row" None
                           (map (fun data =>
                                   ET.Elem (RandomData.name data)
                                     (Some (str (RandomData.value data))) [])
                              (DataString.string_ r)))
                    rows)).
Proof.
  intros Hfile. unfold generate_xml, measure_time.
  unfold bind at 1. unfold ET.Element at 1.
  set (root := length (elements w)).
  set (w1 := set_elements w (elements w ++ [Node "root" None []])).
  change (fun _ : Z =>
            let* row := ET.SubElement root "row" in
            let* data := DataString.new in
            for_each (DataString.string_ data)
              (fun node =>
                 let* leaf := ET.SubElement row (RandomData.name node) in
                 ET.set_text leaf (str (RandomData.value node))))
    with (fun _ : Z => xml_row root).
  destruct (xml_rows_loop root (range 1 N) w1 [] [])
    as (h' & ks' & Hrun & Hroot & Hrows).
  { unfold w1, root. cbn [elements set_elements].
    apply list_lookup_middle. reflexivity. }
  { constructor. }
  rewrite length_range in Hrun, Hrows. cbn [app] in Hrows.
  subst w1.
  rewrite adv_set_elements in Hrun. rewrite records_set_elements in Hrows.
  eexists (records (Z.to_nat (N - 1)) w), _, _.
  split; [rewrite map_m_records, length_range; reflexivity|].
  unfold bind at 1. rewrite Hrun.
  unfold bind at 1. unfold ET.write, bind at 1. unfold File.open_w at 1.
  cbn [denied set_elements]. rewrite adv_denied.
  destruct (decide (file ∈ denied w)) as [_|Hn]; [|contradiction].
  split; [reflexivity|].
  split; [cbn [files set_elements]; apply adv_files|].
  split; [reflexivity|].
  split.
  - cbn [rng set_elements].
    destruct (adv_cursor (7 * Z.to_nat (N - 1)) w) as [-> _]. lia.
  - cbn [elements set_elements].
    apply (tree_of_root h' root ks'); try assumption. apply records_nonempty.
Qed.

Lemma generate_xml_denied_witness :
  ("locked.out" ∈ denied locked_world)
  /\ exists rows w1 w',
      map_m (fun _ => DataString.new) (range 1 3) locked_world = (Ok rows, w1)
      /\ generate_xml "locked.out" 3 locked_world = (Raise OSError, w')
      /\ files w' = files locked_world
      /\ rng w' = rng w1
      /\ Z.of_nat (cursor (rng w'))
         = Z.of_nat (cursor (rng locked_world)) + 7 * Z.max (3 - 1) 0
      /\ ET.tree_of (elements w') (length (elements locked_world))
         = Some (ET.Elem "root" None
                   (map (fun r =>
                           ET.Elem "row" None
                             (map (fun data =>
                                     ET.Elem (RandomData.name data)
                                       (Some (str (RandomData.value data))) [])
                                (DataString.string_ r)))
                      rows)).
Proof.
  assert (H : "locked.out" ∈ denied locked_world) by (vm_compute; set_solver).
  split; [exact H|]. exact (generate_xml_denied "locked.out" 3 locked_world H).
Defined.

(** X10. A requested count of one or less (zero and negative counts
    included) is no error for either serializer: the flat file holds the
    header line and nothing else, the nested file holds the declaration
    and an empty [<root />] element, and the tree has a root without
    children. *)
Theorem no_rows_requested (file : string) (N : Z) (w : World) :
  N <= 1 -> file ∉ denied w ->
  (exists w',
      generate_csv file N w = (Ok tt, w')
      /\ files w' !! file
         = Some "start_page,user,ts,depth,duration,transmit,type"
      /\ lines "start_page,user,ts,depth,duration,transmit,type"
         = ["start_page,user,ts,depth,duration,transmit,type"])
  /\ (exists w',
         generate_xml file N w = (Ok tt, w')
         /\ files w' !! file
            = Some (xml_declaration +:+ String newline "<root />")
         /\ ET.tree_of (elements w') (length (elements w))
            = Some (ET.Elem "root" None [])).
Proof.
  intros HN Hfile.
  assert (Hn : Z.to_nat (N - 1) = 0%nat) by lia.
  split.
  - eexists. split; [apply generate_csv_run, Hfile|].
    rewrite Hn. cbn [records map cat files set_files].
    rewrite lookup_insert_eq, app_empty_r, headers_record.
    split; reflexivity.
  - destruct (generate_xml_run file N w Hfile) as (h' & Hrun & Htree).
    rewrite Hn in Hrun, Htree. cbn [records map] in Hrun, Htree.
    eexists. split; [exact Hrun|]. split; [|exact Htree].
    cbn [files set_files]. rewrite lookup_insert_eq. reflexivity.
Qed.

Lemma no_rows_requested_witness :
  -3 <= 1 /\ ("empty.out" ∉ denied sample_world)
  /\ (exists w',
         generate_csv "empty.out" (-3) sample_world = (Ok tt, w')
         /\ files w' !! "empty.out"
            = Some "start_page,user,ts,depth,duration,transmit,type"
         /\ lines "start_page,user,ts,depth,duration,transmit,type"
            = ["start_page,user,ts,depth,duration,transmit,type"])
  /\ (exists w',
         generate_xml "empty.out" (-3) sample_world = (Ok tt, w')
         /\ files w' !! "empty.out"
            = Some (xml_declaration +:+ String newline "<root />")
         /\ ET.tree_of (elements w') (length (elements sample_world))
            = Some (ET.Elem "root" None [])).
Proof.
  assert (H1 : -3 <= 1) by lia.
  assert (H2 : "empty.out" ∉ denied sample_world) by (vm_compute; set_solver).
  split; [exact H1|]. split; [exact H2|].
  exact (no_rows_requested "empty.out" (-3) sample_world H1 H2).
Defined.

End NestedEdges.


(** * The two output formats *)

Section OutputFormats.

(** C3. For every row count [N], the nested serializer builds one [root]
    element whose direct children are the record elements, all tagged
    [row], one per record drawn and in that order: [N - 1] of them when
    [N >= 1].  Each row contains exactly seven leaves, named and ordered
    [start_page], [user], [ts], [depth], [duration], [transmit], [type],
    and the text of each leaf is the formatted value of the field of that
    name. *)
Theorem generate_xml_rows (file : string) (N : Z) (w : World) :
  file ∉ denied w ->
  exists rows w1 w' kids,
    map_m (fun _ => DataString.new) (range 1 N) w = (Ok rows, w1)
    /\ generate_xml file N w = (Ok tt, w')
    /\ ET.tree_of (elements w') (length (elements w))
       = Some (ET.Elem "root" None kids)
    /\ length kids = Z.to_nat (N - 1)
    /\ (1 <= N -> Z.of_nat (length kids) = N - 1)
    /\ Forall2 (fun r kid =>
                  exists v1 v2 v3 v4 v5 v6 v7,
                    map (fun data => (RandomData.name data, RandomData.value data))
                      (DataString.string_ r)
                    = [("start_page", v1); ("user", v2); ("ts", v3);
                       ("depth", v4); ("duration", v5); ("transmit", v6);
                       ("type", v7)]
                    /\ kid
                       = ET.Elem "row" None
                           [ET.Elem "start_page" (Some (str v1)) [];
                            ET.Elem "user" (Some (str v2)) [];
                            ET.Elem "ts" (Some (str v3)) [];
                            ET.Elem "depth" (Some (str v4)) [];
                            ET.Elem "duration" (Some (str v5)) [];
                            ET.Elem "transmit" (Some (str v6)) [];
                            ET.Elem "type" (Some (str v7)) []])
         rows kids.
Proof.
  intros Hfile.
  destruct (generate_xml_run file N w Hfile) as (h' & Hrun & Htree).
  eexists (records (Z.to_nat (N - 1)) w), _, _, _.
  split; [rewrite map_m_records, length_range; reflexivity|].
  split; [exact Hrun|].
  split; [exact Htree|].
  rewrite length_map, length_records.
  split; [reflexivity|]. split; [lia|].
  generalize (Z.to_nat (N - 1)) as n. generalize w as w0. clear.
  intros w0 n. revert w0.
  induction n as [|n IH]; intros w0; cbn [records map]; constructor;
    [|apply IH].
  unfold row_tree, leaf_tree, record_at, record_of.
  cbn [DataString.string_ map RandomData.name RandomData.value].
  do 7 eexists. split; reflexivity.
Qed.

Lemma generate_xml_rows_witness :
  ("data.xml" ∉ denied sample_world)
  /\ exists rows w1 w' kids,
      map_m (fun _ => DataString.new) (range 1 5) sample_world = (Ok rows, w1)
      /\ generate_xml "data.xml" 5 sample_world = (Ok tt, w')
      /\ ET.tree_of (elements w') (length (elements sample_world))
         = Some (ET.Elem "root" None kids)
      /\ length kids = Z.to_nat (5 - 1)
      /\ (1 <= 5 -> Z.of_nat (length kids) = 5 - 1)
      /\ Forall2 (fun r kid =>
                    exists v1 v2 v3 v4 v5 v6 v7,
                      map (fun data =>
                             (RandomData.name data, RandomData.value data))
                        (DataString.string_ r)
                      = [("start_page", v1); ("user", v2); ("ts", v3);
                         ("depth", v4); ("duration", v5); ("transmit", v6);
                         ("type", v7)]
                      /\ kid
                         = ET.Elem "row" None
                             [ET.Elem "start_page" (Some (str v1)) [];
                              ET.Elem "user" (Some (str v2)) [];
                              ET.Elem "ts" (Some (str v3)) [];
                              ET.Elem "depth" (Some (str v4)) [];
                              ET.Elem "duration" (Some (str v5)) [];
                              ET.Elem "transmit" (Some (str v6)) [];
                              ET.Elem "type" (Some (str v7)) []])
           rows kids.
Proof.
  assert (H : "data.xml" ∉ denied sample_world) by (vm_compute; set_solver).
  split; [exact H|]. exact (generate_xml_rows "data.xml" 5 sample_world H).
Defined.

Lemma prefix_app (s t : string) : String.prefix s (s +:+ t) = true.
Proof.
  induction s as [|c s IH]; [destruct t; reflexivity|].
  rewrite app_cons. cbn [String.prefix].
  destruct (ascii_dec c c) as [_|Hc]; [exact IH|congruence].
Qed.

(** C7. After [generate_xml] completes, the file holds the declaration
    [<?xml version="1.0" encoding="UTF-8"?>], a newline, and the serialized
    tree as the tree writer produced it: the file begins with the
    declaration, which is prepended to the content written before. *)
Theorem generate_xml_prologue (file : string) (N : Z) (w : World) :
  file ∉ denied w ->
  exists w' root content,
    generate_xml file N w = (Ok tt, w')
    /\ ET.tree_of (elements w') (length (elements w)) = Some root
    /\ files w' !! file = Some content
    /\ content = xml_declaration +:+ String newline (ET.serialize_xml root)
    /\ String.prefix xml_declaration content = true
    /\ list_ascii_of_string xml_declaration
       = map ascii_of_nat
           [60; 63; 120; 109; 108; 32; 118; 101; 114; 115; 105; 111; 110; 61;
            34; 49; 46; 48; 34; 32; 101; 110; 99; 111; 100; 105; 110; 103; 61;
            34; 85; 84; 70; 45; 56; 34; 63; 62]%nat.
Proof.
  intros Hfile.
  destruct (generate_xml_run file N w Hfile) as (h' & Hrun & Htree).
  eexists _, _, _.
  split; [exact Hrun|].
  split; [exact Htree|].
  split; [cbn [files set_files]; apply lookup_insert_eq|].
  split; [reflexivity|].
  split; [apply prefix_app|].
  vm_compute. reflexivity.
Qed.

Lemma generate_xml_prologue_witness :
  ("data.xml" ∉ denied sample_world)
  /\ exists w' root content,
      generate_xml "data.xml" 3 sample_world = (Ok tt, w')
      /\ ET.tree_of (elements w') (length (elements sample_world)) = Some root
      /\ files w' !! "data.xml" = Some content
      /\ content = xml_declaration +:+ String newline (ET.serialize_xml root)
      /\ String.prefix xml_declaration content = true
      /\ list_ascii_of_string xml_declaration
         = map ascii_of_nat
             [60; 63; 120; 109; 108; 32; 118; 101; 114; 115; 105; 111; 110;
              61; 34; 49; 46; 48; 34; 32; 101; 110; 99; 111; 100; 105; 110;
              103; 61; 34; 85; 84; 70; 45; 56; 34; 63; 62]%nat.
Proof.
  assert (H : "data.xml" ∉ denied sample_world) by (vm_compute; set_solver).
  split; [exact H|]. exact (generate_xml_prologue "data.xml" 3 sample_world H).
Defined.

(** C10. For every requested count [N <= 1], zero and negative counts
    included, the loop over [range(1, N)] is empty and neither serializer
    raises (the destination being one that can be opened): the flat file
    is the header line with no data line, and the nested serializer builds
    and writes a [root] element without any [row] child. *)
Theorem small_count_no_data (file : string) (N : Z) (w : World) :
  N <= 1 -> file ∉ denied w ->
  range 1 N = []
  /\ (exists w' content,
         generate_csv file N w = (Ok tt, w')
         /\ files w' !! file = Some content
         /\ content = "start_page,user,ts,depth,duration,transmit,type"
         /\ lines content = ["start_page,user,ts,depth,duration,transmit,type"])
  /\ (exists w' content,
         generate_xml file N w = (Ok tt, w')
         /\ ET.tree_of (elements w') (length (elements w))
            = Some (ET.Elem "root" None [])
         /\ files w' !! file = Some content
         /\ content
            = xml_declaration
              +:+ String newline (ET.serialize_xml (ET.Elem "root" None []))).
Proof.
  intros HN Hfile.
  assert (Hn : Z.to_nat (N - 1) = 0%nat) by lia.
  split.
  { pose proof (length_range 1 N) as Hlen. rewrite Hn in Hlen.
    destruct (range 1 N); [reflexivity|discriminate]. }
  split.
  - eexists _, _. split; [apply generate_csv_run, Hfile|].
    rewrite Hn. cbn [records map cat files set_files].
    rewrite app_empty_r, headers_record.
    split; [apply lookup_insert_eq|]. split; reflexivity.
  - destruct (generate_xml_run file N w Hfile) as (h' & Hrun & Htree).
    rewrite Hn in Hrun, Htree. cbn [records map] in Hrun, Htree.
    eexists _, _. split; [exact Hrun|]. split; [exact Htree|].
    split; [cbn [files set_files]; apply lookup_insert_eq|]. reflexivity.
Qed.

Lemma small_count_no_data_witness :
  0 <= 1 /\ ("empty.out" ∉ denied sample_world)
  /\ range 1 0 = []
  /\ (exists w' content,
         generate_csv "empty.out" 0 sample_world = (Ok tt, w')
         /\ files w' !! "empty.out" = Some content
         /\ content = "start_page,user,ts,depth,duration,transmit,type"
         /\ lines content = ["start_page,user,ts,depth,duration,transmit,type"])
  /\ (exists w' content,
         generate_xml "empty.out" 0 sample_world = (Ok tt, w')
         /\ ET.tree_of (elements w') (length (elements sample_world))
            = Some (ET.Elem "root" None [])
         /\ files w' !! "empty.out" = Some content
         /\ content
            = xml_declaration
              +:+ String newline (ET.serialize_xml (ET.Elem "root" None []))).
Proof.
  assert (H1 : 0 <= 1) by lia.
  assert (H2 : "empty.out" ∉ denied sample_world) by (vm_compute; set_solver).
  split; [exact H1|]. split; [exact H2|].
  exact (small_count_no_data "empty.out" 0 sample_world H1 H2).
Defined.

Lemma uint_no_dot (d : Decimal.uint) :
  all_chars no_dot (NilEmpty.string_of_uint d) = true.
Proof. induction d; simpl; try rewrite IHd; reflexivity. Qed.

Lemma str_int_no_dot (n : Z) : all_chars no_dot (str_int n) = true.
Proof.
  unfold str_int, NilZero.string_of_int, NilZero.string_of_uint.
  destruct (Z.to_int n) as [d|d]; destruct d; simpl;
    try reflexivity; apply uint_no_dot.
Qed.

Lemma zeros_no_dot (n : nat) : all_chars no_dot (zeros n) = true.
Proof. induction n; simpl; [reflexivity|exact IHn]. Qed.

Lemma fmt_0d_no_dot (w : nat) (n : Z) : all_chars no_dot (fmt_0d w n) = true.
Proof.
  unfold fmt_0d. destruct (n <? 0); simpl;
    rewrite all_chars_app, zeros_no_dot, str_int_no_dot; reflexivity.
Qed.

Lemma after_dot_app (a b : string) :
  all_chars no_dot a = true -> after_dot (a +:+ b) = after_dot b.
Proof.
  induction a as [|c a IH]; [intros _; apply f_equal, app_empty_l|].
  rewrite app_cons. cbn [all_chars after_dot]. unfold no_dot at 1.
  intros H. apply andb_true_iff in H as [Hc Ha].
  apply negb_true_iff in Hc. rewrite Hc. exact (IH Ha).
Qed.

Lemma length_zeros (n : nat) : String.length (zeros n) = n.
Proof. induction n; simpl; [reflexivity|]. rewrite IHn. reflexivity. Qed.

Lemma length_app_str (s t : string) :
  String.length (s +:+ t) = (String.length s + String.length t)%nat.
Proof.
  induction s as [|c s IH]; [rewrite app_empty_l; reflexivity|].
  rewrite app_cons. cbn [String.length]. rewrite IH. reflexivity.
Qed.

(** [%0wd] prints at least [w] characters. *)
Lemma fmt_0d_length (w : nat) (n : Z) : (w <= String.length (fmt_0d w n))%nat.
Proof.
  unfold fmt_0d. destruct (n <? 0); cbn [String.length];
    rewrite length_app_str, length_zeros; lia.
Qed.

Lemma has_shape_length (p s : string) :
  has_shape p s = true -> String.length s = String.length p.
Proof.
  revert s. induction p as [|pc p IH]; intros [|c s]; cbn [has_shape];
    try discriminate; [reflexivity|].
  intros H. apply andb_true_iff in H as [_ H].
  cbn [String.length]. rewrite (IH s H). reflexivity.
Qed.

Lemma is_digit_no_dot (c : ascii) : is_digit c = true -> Ascii.eqb c "." = false.
Proof.
  destruct c as [[|] [|] [|] [|] [|] [|] [|] [|]]; vm_compute; congruence.
Qed.

(** A text of a given shape has its decimal point where the shape has it,
    and what follows the point has the shape of what follows it there. *)
Lemma has_shape_after_dot (p s : string) :
  has_shape p s = true ->
  match after_dot p, after_dot s with
  | Some p', Some s' => has_shape p' s' = true
  | None, None => True
  | _, _ => False
  end.
Proof.
  revert s. induction p as [|pc p IH]; intros [|c s]; cbn [has_shape];
    try discriminate; [intros _; exact I|].
  intros H. apply andb_true_iff in H as [Hc H].
  cbn [after_dot].
  destruct (Ascii.eqb pc "d") eqn:Hd.
  - apply Ascii.eqb_eq in Hd. subst pc.
    rewrite (is_digit_no_dot c Hc).
    change (Ascii.eqb "d" ".") with false. cbv iota. exact (IH s H).
  - apply Ascii.eqb_eq in Hc. subst c.
    destruct (Ascii.eqb pc "."); [exact H|exact (IH s H)].
Qed.

Lemma str_datetime_after_dot (t : datetime) :
  after_dot (str_datetime t)
  = if microsecond t =? 0 then None else Some (fmt_0d 6 (microsecond t)).
Proof.
  unfold str_datetime. destruct (microsecond t =? 0);
    repeat (rewrite after_dot_app by
              lazymatch goal with
              | |- all_chars no_dot (fmt_0d _ _) = true => apply fmt_0d_no_dot
              | |- _ => reflexivity
              end);
    reflexivity.
Qed.

(** [str] of a [datetime] never has three fractional digits. *)
Lemma str_datetime_not_milliseconds (t : datetime) :
  millisecond_format (str_datetime t) = false.
Proof.
  destruct (millisecond_format (str_datetime t)) eqn:H; [|reflexivity].
  unfold millisecond_format in H. apply has_shape_after_dot in H.
  rewrite str_datetime_after_dot in H.
  change (after_dot "dddd-dd-dd dd:dd:dd.ddd") with (Some "ddd") in H.
  cbv iota in H.
  destruct (microsecond t =? 0); [contradiction|].
  apply has_shape_length in H.
  pose proof (fmt_0d_length 6 (microsecond t)) as Hlen.
  rewrite H in Hlen. cbn [String.length] in Hlen. lia.
Qed.

Lemma ts_text_record_at (w : World) :
  ts_text (record_at w)
  = str_datetime (ts_of ts_min ts_max (draw (adv 2 w) mod 2 ^ 53)).
Proof. reflexivity. Qed.

(** C2. The text of a timestamp is [str(value)] of a [datetime]: the
    seconds are followed by the microseconds, with six digits, or by
    nothing at all when the microseconds are zero.  Whatever the random
    source draws, the [ts] field of the record that [DataString()] builds
    does not have the shape [YYYY-MM-DD HH:MM:SS.mmm] of the documented
    example [2016-11-02 16:37:03.240].  Two runs of each serializer show
    both cases: one whose record holds [2005-02-01 17:11:33.733290] (flat)
    or [2005-01-08 19:46:40.163323] (nested), one whose generator draws
    zeros and whose record holds [2005-01-01 23:56:42]. *)
Theorem ts_text_not_milliseconds :
  (forall w : World,
      exists r w' t,
        DataString.new w = (Ok r, w')
        /\ ts_text r = str_datetime t
        /\ millisecond_format (ts_text r) = false)
  /\ files (snd (generate_csv "data.csv" 2 sample_world)) !! "data.csv"
     = Some ("start_page,user,ts,depth,duration,transmit,type"
             +:+ String newline
                   "248707895,70501227,2005-02-01 17:11:33.733290,19,9882,41027149,1")
  /\ files (snd (generate_xml "data.xml" 2 sample_world)) !! "data.xml"
     = Some (xml_declaration
             +:+ String newline
                   ("<root><row><start_page>12346</start_page>"
                    +:+ "<user>21323456</user>"
                    +:+ "<ts>2005-01-08 19:46:40.163323</ts>"
                    +:+ "<depth>19</depth><duration>5213</duration>"
                    +:+ "<transmit>433785180</transmit><type>4</type>"
                    +:+ "</row></root>"))
  /\ files (snd (generate_csv "data.csv" 2 zero_world)) !! "data.csv"
     = Some ("start_page,user,ts,depth,duration,transmit,type"
             +:+ String newline "1,1,2005-01-01 23:56:42,1,100,100000,1")
  /\ files (snd (generate_xml "data.xml" 2 zero_world)) !! "data.xml"
     = Some (xml_declaration
             +:+ String newline
                   ("<root><row><start_page>1</start_page><user>1</user>"
                    +:+ "<ts>2005-01-01 23:56:42</ts>"
                    +:+ "<depth>1</depth><duration>100</duration>"
                    +:+ "<transmit>100000</transmit><type>1</type>"
                    +:+ "</row></root>"))
  /\ millisecond_format "2016-11-02 16:37:03.240" = true.
Proof.
  split.
  { intros w.
    exists (record_at w), (adv 7 w),
      (ts_of ts_min ts_max (draw (adv 2 w) mod 2 ^ 53)).
    split; [apply DataString_new_ok|].
    split; [apply ts_text_record_at|].
    rewrite ts_text_record_at. apply str_datetime_not_milliseconds. }
  repeat split; vm_compute; reflexivity.
Qed.

End OutputFormats.
